(** * Space API bootstrap: error handler, trailing-slash skipper, static handler

    A shallow embedding of [apis/base.go] (package [apis]):
    - [InitApi]: the [Skipper] of the trailing-slash middleware and the
      custom [HTTPErrorHandler];
    - [StaticDirectoryHandler].

    Go values are modelled by value, except [*ApiError], which the handler
    shares with the registered hooks through a pointer: those live in a
    store ([heap]) and are referred to by address.  Effects (the response,
    the store, the diagnostic log, the calls made to hooks and to the
    framework) are threaded through a small state-and-trace monad [Eff]. *)

From Stdlib Require Import String Ascii List ZArith Bool Lia DecimalString.
Import ListNotations.
Open Scope string_scope.
Open Scope Z_scope.

(** ** Go values: [any], [error], [*echo.HTTPError] *)

Module Go.

(** Address of an [ApiError] in the store. *)
Definition ptr := nat.

(** The dynamic values that reach this file: [nil], strings, integers and
    errors.  An [error] is one of
    - a [*ApiError] (by address),
    - a [*echo.HTTPError] (code, message, wrapped internal cause),
    - the sentinel [echo.ErrNotFound] (itself a [*echo.HTTPError] with
      code 404 and message [http.StatusText(404)]),
    - the sentinel [sql.ErrNoRows],
    - a [url.EscapeError] (the offending escape),
    - an [errors.New] value,
    - a [fmt.Errorf(prefix + "%w", err)] value wrapping another error. *)
Inductive any : Type :=
| AnyNil
| AnyString (s : string)
| AnyInt (z : Z)
| AnyError (e : error)
with error : Type :=
| E_ApiError (p : ptr)
| E_HTTPError (h : HTTPError)
| ErrNotFound
| ErrNoRows
| EscapeError (s : string)
| errorString (s : string)
| wrapError (prefix : string) (err : error)
with HTTPError : Type :=
| mkHTTPError (Code : Z) (Message : any) (Internal : option error).

Definition HTTPError_Code (h : HTTPError) : Z :=
  let 'mkHTTPError c _ _ := h in c.
Definition HTTPError_Message (h : HTTPError) : any :=
  let 'mkHTTPError _ m _ := h in m.
Definition HTTPError_Internal (h : HTTPError) : option error :=
  let 'mkHTTPError _ _ i := h in i.

(** An [error] interface value: [None] is [nil]. *)
Definition error_value := option error.

(** Conversion of an [error] interface value to [any] (as done implicitly
    when it is passed to [log.Println]). *)
Definition any_of_error (e : error_value) : any :=
  match e with
  | None => AnyNil
  | Some e => AnyError e
  end.

Definition StatusNotFound : Z := 404.
Definition StatusBadRequest : Z := 400.
Definition StatusOK : Z := 200.
Definition MethodHead : string := "HEAD".

(** [echo.ErrNotFound = NewHTTPError(http.StatusNotFound)]. *)
Definition ErrNotFound_fields : HTTPError :=
  mkHTTPError StatusNotFound (AnyString "Not Found") None.

(** The chain of an error: [fmt.Errorf]'s wrapper unwraps to the wrapped
    error, [*echo.HTTPError] to its [Internal]; nothing else here
    unwraps.

    [errors.As(err, &apiErr)] with [apiErr : *ApiError]: the first
    [*ApiError] of the chain. *)
Fixpoint As_ApiError (e : error) : option ptr :=
  match e with
  | E_ApiError p => Some p
  | E_HTTPError (mkHTTPError _ _ (Some i)) => As_ApiError i
  | wrapError _ inner => As_ApiError inner
  | _ => None
  end.

(** [errors.As(err, &v)] with [v : *echo.HTTPError]: the first
    [*echo.HTTPError] of the chain, as the error node found (the pointer
    [v]) together with its fields. *)
Fixpoint As_HTTPError (e : error) : option (error * HTTPError) :=
  match e with
  | E_HTTPError h => Some (e, h)
  | ErrNotFound => Some (e, ErrNotFound_fields)
  | wrapError _ inner => As_HTTPError inner
  | _ => None
  end.

(** Identity of error values, as [==] on the interface values: pointers
    compare by address, sentinels by identity; [errors.New] and
    [fmt.Errorf] results are fresh pointers, never equal to a sentinel. *)
Definition is_sentinel (target e : error) : bool :=
  match target, e with
  | ErrNotFound, ErrNotFound => true
  | ErrNoRows, ErrNoRows => true
  | _, _ => false
  end.

(** [errors.Is(err, target)] for a sentinel [target]. *)
Fixpoint Is (e target : error) : bool :=
  is_sentinel target e ||
  match e with
  | wrapError _ inner => Is inner target
  | E_HTTPError (mkHTTPError _ _ (Some i)) => Is i target
  | _ => false
  end.

(** Decimal rendering of an integer ([%d]). *)
Definition itoa (z : Z) : string := NilZero.string_of_int (Z.to_int z).

Definition dquote : ascii := ascii_of_nat 34.
Definition backslash : ascii := ascii_of_nat 92.

(** [strconv.Quote], for printable ASCII text: the double quote and the
    backslash are escaped, the text is put between double quotes. *)
Fixpoint quote_body (s : string) : string :=
  match s with
  | EmptyString => EmptyString
  | String c rest =>
      if (c =? dquote)%char || (c =? backslash)%char
      then String backslash (String c (quote_body rest))
      else String c (quote_body rest)
  end.

Definition Quote (s : string) : string :=
  String dquote (quote_body s ++ String dquote EmptyString).

End Go.
Export Go.

(** ** ApiError *)

(** Modelled from the spec: [apis/api_error.go] is not among the sources.
    The spec (section 3) gives [ApiError] as
    [{code: int, message: string, rawData: optional<any>}]. *)
Record ApiError : Type := mkApiError {
  Code : Z;
  Message : string;
  rawData : any
}.

(** Modelled from the spec: the accessor of the raw diagnostic payload. *)
Definition RawData (a : ApiError) : any := rawData a.

(** Modelled from the spec: [NewApiError(status, message, data)] builds the
    normalized error with that status code, message and raw payload. *)
Definition NewApiError (status : Z) (message : string) (data : any) : ApiError :=
  {| Code := status; Message := message; rawData := data |}.

(** Modelled from the spec: Not-Found is 404 (section 4.1, rule 3). *)
Definition NewNotFoundError (message : string) (data : any) : ApiError :=
  NewApiError StatusNotFound message data.

(** Modelled from the spec: Bad-Request is 400 (section 4.1, rule 3). *)
Definition NewBadRequestError (message : string) (data : any) : ApiError :=
  NewApiError StatusBadRequest message data.

(** The store of [ApiError] objects, indexed by address. *)
Definition heap := list ApiError.

Definition nilApiError : ApiError := mkApiError 0 "" AnyNil.

Definition deref (h : heap) (p : ptr) : ApiError := nth p h nilApiError.

(** [new]: the fresh address is the next free cell. *)
Definition alloc (h : heap) (a : ApiError) : ptr * heap :=
  (List.length h, (h ++ [a])%list).

(** ** Rendering with [%v] *)

(** [err.Error()] and [fmt.Sprintf("%v", x)].  [*ApiError]'s [Error()]
    is its message; [*echo.HTTPError] prints code, message and, when
    present, the internal cause. *)
Fixpoint Sprintf_v (h : heap) (x : any) : string :=
  match x with
  | AnyNil => "<nil>"
  | AnyString s => s
  | AnyInt z => itoa z
  | AnyError e => Error h e
  end
with Error (h : heap) (e : error) : string :=
  match e with
  | E_ApiError p => Message (deref h p)
  | E_HTTPError (mkHTTPError c m None) =>
      "code=" ++ itoa c ++ ", message=" ++ Sprintf_v h m
  | E_HTTPError (mkHTTPError c m (Some i)) =>
      "code=" ++ itoa c ++ ", message=" ++ Sprintf_v h m
        ++ ", internal=" ++ Error h i
  | ErrNotFound => "code=404, message=Not Found"
  | ErrNoRows => "sql: no rows in result set"
  | EscapeError s => "invalid URL escape " ++ Quote s
  | errorString s => s
  | wrapError prefix e => prefix ++ Error h e
  end.

(** ** The world of one request *)

(** Modelled from the spec: the JSON document of an [ApiError] has the two
    members [code] and [message] (section 6); [rawData] is unexported and
    never serialized.  [rest.Serializer] and the struct tags of
    [ApiError] are not among the sources. *)
Inductive json_value : Type :=
| JNumber (z : Z)
| JString (s : string).

(** A JSON object: its members, in order. *)
Definition json : Type := list (string * json_value).

Definition ApiError_json (a : ApiError) : json :=
  [("code", JNumber (Code a)); ("message", JString (Message a))].

(** What has been written to the response body. *)
Inductive chunk : Type :=
| JSONDocument (j : json)
| FileContent (data : string).

(** [echo.Response]: the committed flag, the status and the body written
    so far.  [Writer_err] is the state of the underlying connection:
    [Some e] when writing the body fails with [e]. *)
Record Response : Type := mkResponse {
  Committed : bool;
  Status : Z;
  Body : list chunk;
  Writer_err : option error
}.

Record Request : Type := mkRequest {
  Method : string;
  URL_Path : string;
  URL_RawQuery : string;
  RequestURI : string
}.

(** The context [c] of the request being handled, and the store. *)
Record World : Type := mkWorld {
  request : Request;
  response : Response;
  store : heap
}.

(** The two hook chains of the error path. *)
Inductive HookName : Type := BeforeApiError | AfterApiError.

(** Calls the code of this file makes, in order: the diagnostic log, the
    triggers of the hook chains and the observers they run, the response
    writes and the file serving attempts. *)
Inductive Action : Type :=
| Println (args : list any)
| TriggerCall (hook : HookName)
| CallObserver (hook : HookName)
| NoContentCall (code : Z)
| JSONCall (code : Z) (body : json)
| FileFSCall (name : string).

(** State and trace. *)
Definition Eff (A : Type) : Type := World -> A * World * list Action.

Definition ret {A} (a : A) : Eff A := fun w => (a, w, []).

Definition bind {A B} (m : Eff A) (k : A -> Eff B) : Eff B :=
  fun w =>
    let '(a, w1, t1) := m w in
    let '(b, w2, t2) := k a w1 in
    (b, w2, (t1 ++ t2)%list).

Declare Scope eff_scope.
Delimit Scope eff_scope with eff.
Notation "x <- m ;; k" := (bind m (fun x => k))
  (at level 100, m at next level, right associativity) : eff_scope.
Notation "m ;;; k" := (bind m (fun _ => k))
  (at level 100, right associativity) : eff_scope.
Open Scope eff_scope.

Definition gets {A} (f : World -> A) : Eff A := fun w => (f w, w, []).
Definition modify (f : World -> World) : Eff unit := fun w => (tt, f w, []).
Definition emit (a : Action) : Eff unit := fun w => (tt, w, [a]).
Definition when (b : bool) (m : Eff unit) : Eff unit :=
  if b then m else ret tt.

Definition result_of {A} (r : A * World * list Action) : A := fst (fst r).
Definition world_of {A} (r : A * World * list Action) : World := snd (fst r).
Definition trace_of {A} (r : A * World * list Action) : list Action := snd r.

(** [log.Println(args...)]. *)
Definition log_Println (args : list any) : Eff unit := emit (Println args).

Definition set_response (r : Response) (w : World) : World :=
  {| request := request w; response := r; store := store w |}.

(** ** The framework's response writes *)

Module echo.

(** [Response.WriteHeader(code)]: nothing on a committed response;
    otherwise the status is set and the response is committed. *)
Definition WriteHeader (code : Z) (r : Response) : Response :=
  if Committed r then r
  else {| Committed := true; Status := code; Body := Body r;
          Writer_err := Writer_err r |}.

(** [Response.Write(b)]: commits with the current status (200 when none
    is set), then writes to the connection, which may fail. *)
Definition Write (b : chunk) (r : Response) : Response * error_value :=
  let r1 := if Committed r then r
            else WriteHeader (if Status r =? 0 then StatusOK else Status r) r in
  match Writer_err r1 with
  | Some e => (r1, Some e)
  | None => ({| Committed := Committed r1; Status := Status r1;
                Body := (Body r1 ++ [b])%list;
                Writer_err := Writer_err r1 |}, None)
  end.

(** [c.NoContent(code)]: [WriteHeader(code)], no body, no error. *)
Definition NoContent (code : Z) : Eff error_value :=
  emit (NoContentCall code) ;;;
  modify (fun w => set_response (WriteHeader code (response w)) w) ;;;
  ret None.

(** [c.JSON(code, apiErr)]: sets the status, then serializes the object
    into the response. *)
Definition JSON (code : Z) (p : ptr) : Eff error_value :=
  a <- gets (fun w => deref (store w) p) ;;
  emit (JSONCall code (ApiError_json a)) ;;;
  r <- gets response ;;
  let r0 := {| Committed := Committed r; Status := code; Body := Body r;
               Writer_err := Writer_err r |} in
  let '(r1, err) := Write (JSONDocument (ApiError_json a)) r0 in
  modify (set_response r1) ;;;
  ret err.

End echo.

(** ** Hooks *)

(** Modelled from the spec: [core.ApiErrorEvent] (section 3) is
    [{httpContext, error}].  [HttpContext] is the context of the request
    being handled, which is the [World] itself; the event carries the
    address of the [ApiError]. *)
Record ApiErrorEvent : Type := mkApiErrorEvent {
  EventError : ptr
}.

(** A registered observer: it receives the event, may change the event
    and anything in the world (write the response, rewrite the error
    object), and returns [nil] or an error. *)
Definition Handler : Type :=
  ApiErrorEvent -> World -> error_value * ApiErrorEvent * World.

(** A handler run by [Trigger], registered or one-off. *)
Definition EffHandler : Type :=
  ApiErrorEvent -> Eff (error_value * ApiErrorEvent).

Definition registered (name : HookName) (h : Handler) : EffHandler :=
  fun e =>
    emit (CallObserver name) ;;;
    (fun w => let '(r, e', w') := h e w in ((r, e'), w', [])).

(** Modelled from the spec: [tools/hook] is not among the sources.
    Section 4.2 and the design notes: the observers are invoked
    synchronously in registration order, composed with the terminal
    action, which runs last; the first failure ends the pass and is its
    result. *)
Fixpoint run_handlers (hs : list EffHandler) (e : ApiErrorEvent)
  : Eff (error_value * ApiErrorEvent) :=
  match hs with
  | [] => ret (None, e)
  | h :: rest =>
      r <- h e ;;
      match fst r with
      | None => run_handlers rest (snd r)
      | Some err => ret (Some err, snd r)
      end
  end.

Record Hook : Type := mkHook {
  hook_name : HookName;
  handlers : list Handler
}.

Definition Trigger (h : Hook) (data : ApiErrorEvent) (oneOffHandlers : list EffHandler)
  : Eff (error_value * ApiErrorEvent) :=
  emit (TriggerCall (hook_name h)) ;;;
  run_handlers (map (registered (hook_name h)) (handlers h) ++ oneOffHandlers)%list data.

(** [core.App], as far as this file uses it. *)
Record App : Type := mkApp {
  IsDebug : bool;
  beforeApiError : list Handler;
  afterApiError : list Handler
}.

Definition OnBeforeApiError (app : App) : Hook :=
  {| hook_name := BeforeApiError; handlers := beforeApiError app |}.
Definition OnAfterApiError (app : App) : Hook :=
  {| hook_name := AfterApiError; handlers := afterApiError app |}.

(** ** The error handler of [InitApi] *)

Definition set_store (h : heap) (w : World) : World :=
  {| request := request w; response := response w; store := h |}.

(** Allocation of the [*ApiError] returned by a constructor. *)
Definition new_ApiError (a : ApiError) : Eff ptr :=
  fun w => let '(p, h) := alloc (store w) a in (p, set_store h w, []).

Definition is_nil (x : any) : bool :=
  match x with AnyNil => true | _ => false end.

Definition is_some {A} (o : option A) : bool :=
  match o with Some _ => true | None => false end.

(** The classification of [err] into [apiErr] (the [if / else if / else]
    of the handler). *)
Definition classify (app : App) (err : error) : Eff ptr :=
  match As_ApiError err with
  | Some apiErr =>
      raw <- gets (fun w => RawData (deref (store w) apiErr)) ;;
      when (IsDebug app && negb (is_nil raw)) (log_Println [raw]) ;;;
      ret apiErr
  | None =>
      match As_HTTPError err with
      | Some (v, fields) =>
          when (is_some (HTTPError_Internal fields) && IsDebug app)
               (log_Println [any_of_error (HTTPError_Internal fields)]) ;;;
          msg <- gets (fun w => Sprintf_v (store w) (HTTPError_Message fields)) ;;
          new_ApiError (NewApiError (HTTPError_Code fields) msg (AnyError v))
      | None =>
          when (IsDebug app) (log_Println [AnyError err]) ;;;
          if Is err ErrNoRows
          then new_ApiError (NewNotFoundError "" (AnyError err))
          else new_ApiError (NewBadRequestError "" (AnyError err))
      end
  end.

(** The one-off handler given to the [OnBeforeApiError] trigger: the
    terminal action that sends the error response. *)
Definition sendErrorResponse (apiErr : ptr) : EffHandler :=
  fun e =>
    committed <- gets (fun w => Committed (response w)) ;;
    if (committed : bool) then ret (None, e)
    else
      method <- gets (fun w => Method (request w)) ;;
      code <- gets (fun w => Code (deref (store w) apiErr)) ;;
      if (method =? MethodHead)%string
      then r <- echo.NoContent code ;; ret (r, e)
      else r <- echo.JSON code apiErr ;; ret (r, e).

Definition HTTPErrorHandler (app : App) (err : error_value) : Eff unit :=
  match err with
  | None => ret tt
  | Some err =>
      committed <- gets (fun w => Committed (response w)) ;;
      if (committed : bool) then
        when (IsDebug app)
             (log_Println [AnyString "HTTPErrorHandler response was already committed:";
                           AnyError err])
      else
        apiErr <- classify app err ;;
        let event := {| EventError := apiErr |} in
        r <- Trigger (OnBeforeApiError app) event [sendErrorResponse apiErr] ;;
        let hookErr := fst r in
        let event := snd r in
        match hookErr with
        | None =>
            r' <- Trigger (OnAfterApiError app) event [] ;;
            when (is_some (fst r') && IsDebug app)
                 (log_Println [any_of_error hookErr])
        | Some _ =>
            when (IsDebug app) (log_Println [any_of_error hookErr])
        end
  end.

(** A status code that [net/http] accepts in [WriteHeader]; the invariant
    of [ApiError] (spec, section 3: [code] is a valid HTTP status). *)
Definition valid_status (code : Z) : Prop := 100 <= code <= 999.

(** ** Reading traces *)

Definition is_log (a : Action) : bool :=
  match a with Println _ => true | _ => false end.

(** A response write issued by the handler. *)
Definition is_write (a : Action) : bool :=
  match a with NoContentCall _ | JSONCall _ _ => true | _ => false end.

Definition HookName_eqb (a b : HookName) : bool :=
  match a, b with
  | BeforeApiError, BeforeApiError => true
  | AfterApiError, AfterApiError => true
  | _, _ => false
  end.

(** A call of an observer of the chain [name]. *)
Definition is_observer (name : HookName) (a : Action) : bool :=
  match a with
  | CallObserver n => HookName_eqb n name
  | _ => false
  end.

(** A trigger of the chain [name], or a call of one of its observers. *)
Definition is_chain (name : HookName) (a : Action) : bool :=
  match a with
  | TriggerCall n | CallObserver n => HookName_eqb n name
  | _ => false
  end.

Definition count (f : Action -> bool) (t : list Action) : nat :=
  List.length (filter f t).

(** The registered observers of a hook, without one-off handlers. *)
Definition run_observers (h : Hook) (data : ApiErrorEvent)
  : Eff (error_value * ApiErrorEvent) :=
  run_handlers (map (registered (hook_name h)) (handlers h)) data.

(** ** Strings and paths *)

Module strings.

Definition HasPrefix (s prefix : string) : bool :=
  (String.length prefix <=? String.length s)%nat &&
  (substring 0 (String.length prefix) s =? prefix)%string.

Definition HasSuffix (s suffix : string) : bool :=
  (String.length suffix <=? String.length s)%nat &&
  (substring (String.length s - String.length suffix) (String.length suffix) s
   =? suffix)%string.

Definition TrimPrefix (s prefix : string) : string :=
  if HasPrefix s prefix
  then substring (String.length prefix)
                 (String.length s - String.length prefix) s
  else s.

(** [strings.Split(s, "/")]. *)
Fixpoint split_slash (s : string) : list string :=
  match s with
  | EmptyString => [EmptyString]
  | String c rest =>
      if (c =? "/")%char then EmptyString :: split_slash rest
      else match split_slash rest with
           | e :: es => String c e :: es
           | [] => [String c EmptyString]
           end
  end.

(** A text without slash: one path element. *)
Fixpoint no_slash (s : string) : bool :=
  match s with
  | EmptyString => true
  | String c rest => negb (c =? "/")%char && no_slash rest
  end.

End strings.
Export strings.

(** ** The trailing-slash middleware *)

(** The [Skipper] given to the middleware in [InitApi]. *)
Definition Skipper (req : Request) : bool :=
  negb (HasPrefix (URL_Path req) "/api/").

(** [middleware.RemoveTrailingSlashWithConfig] with no redirect code: a
    skipped request goes on as it is; otherwise one trailing slash is cut
    from the path ([len(path) - 1 > 0] and the path ends in a slash) and
    the request URI is rebuilt from the new path and the query string. *)
Definition RemoveTrailingSlash (skipper : Request -> bool) (req : Request) : Request :=
  if skipper req then req
  else
    let path := URL_Path req in
    let qs := URL_RawQuery req in
    let l := Z.of_nat (String.length path) - 1 in
    if (0 <? l) && HasSuffix path "/" then
      let path' := substring 0 (Z.to_nat l) path in
      let uri := if (qs =? "")%string then path' else path' ++ "?" ++ qs in
      {| Method := Method req; URL_Path := path'; URL_RawQuery := qs;
         RequestURI := uri |}
    else req.

(** ** Percent-decoding *)

Module url.

Definition in_range (lo hi : nat) (c : ascii) : bool :=
  (lo <=? nat_of_ascii c)%nat && (nat_of_ascii c <=? hi)%nat.

Definition ishex (c : ascii) : bool :=
  in_range 48 57 c || in_range 97 102 c || in_range 65 70 c.

Definition unhex (c : ascii) : nat :=
  if in_range 48 57 c then nat_of_ascii c - 48
  else if in_range 97 102 c then nat_of_ascii c - 97 + 10
  else if in_range 65 70 c then nat_of_ascii c - 65 + 10
  else 0.

(** [url.PathUnescape]: every [%XX] becomes the byte it names; a [%] not
    followed by two hexadecimal digits is an [EscapeError] carrying the
    (at most three) bytes found there.  A [+] stays a [+]. *)
Fixpoint PathUnescape (s : string) : string + error :=
  match s with
  | EmptyString => inl EmptyString
  | String c rest =>
      if (c =? "%")%char then
        match rest with
        | String a (String b rest') =>
            if ishex a && ishex b then
              match PathUnescape rest' with
              | inl t => inl (String (ascii_of_nat (unhex a * 16 + unhex b)) t)
              | inr e => inr e
              end
            else inr (EscapeError (substring 0 3 s))
        | _ => inr (EscapeError (substring 0 3 s))
        end
      else
        match PathUnescape rest with
        | inl t => inl (String c t)
        | inr e => inr e
        end
  end.

End url.

(** ** Lexical path cleaning (Unix paths: the separator is the slash) *)

Module filepath.

(** The elements of the cleaned path, [out] being the elements kept so
    far, last first.  Empty and [.] elements are dropped; a [..] removes
    the element before it when there is one that is not itself [..];
    otherwise it is kept, unless the path is rooted. *)
Fixpoint clean_elements (rooted : bool) (elems out : list string) : list string :=
  match elems with
  | [] => rev out
  | e :: rest =>
      if (e =? "")%string || (e =? ".")%string then clean_elements rooted rest out
      else if (e =? "..")%string then
        match out with
        | top :: out' =>
            if (top =? "..")%string
            then clean_elements rooted rest (e :: out)
            else clean_elements rooted rest out'
        | [] =>
            if rooted then clean_elements rooted rest []
            else clean_elements rooted rest [e]
        end
      else clean_elements rooted rest (e :: out)
  end.

(** [filepath.Clean]: the shortest equivalent path; the empty result is
    written [.], a rooted path keeps its leading slash. *)
Definition Clean (path : string) : string :=
  if (path =? "")%string then "."
  else
    let rooted := HasPrefix path "/" in
    let body := String.concat "/" (clean_elements rooted (split_slash path) []) in
    if rooted then "/" ++ body
    else if (body =? "")%string then "." else body.

(** [filepath.ToSlash]: the separator already is the slash. *)
Definition ToSlash (path : string) : string := path.

(** [filepath.Join] of two non-empty elements. *)
Definition Join (a b : string) : string := Clean (a ++ "/" ++ b).

End filepath.

(** ** The virtual filesystem *)

Module fs.

(** An open file: what [Stat] tells, whether it can seek, its bytes. *)
Record File : Type := mkFile {
  IsDir : bool;
  Stat_err : option error;
  ReadSeeker : bool;
  Data : string
}.

(** [fs.FS]: [Open] gives the file or fails. *)
Definition FS : Type := string -> option File.

Definition valid_element (e : string) : bool :=
  negb ((e =? "")%string || (e =? ".")%string || (e =? "..")%string).

(** The element check of [fs.ValidPath]: the name is [.], or none of
    its slash-separated elements is empty, [.] or [..]. *)
Definition valid_elements (name : string) : bool :=
  (name =? ".")%string || forallb valid_element (split_slash name).

(** An [FS] that, as [fs.FS] asks of [Open], refuses the names that
    [fs.ValidPath] refuses. *)
Definition enforces_ValidPath (fsys : FS) : Prop :=
  forall name, valid_elements name = false -> fsys name = None.

(** Whether a name, read from the root, stays inside it: it is not
    rooted and no [..] climbs above the root. *)
Fixpoint depth_ok (elems : list string) (depth : nat) : bool :=
  match elems with
  | [] => true
  | e :: rest =>
      if (e =? "..")%string then
        match depth with
        | O => false
        | S d => depth_ok rest d
        end
      else if (e =? "")%string || (e =? ".")%string then depth_ok rest depth
      else depth_ok rest (S depth)
  end.

Definition inside_root (name : string) : bool :=
  negb (HasPrefix name "/") && depth_ok (split_slash name) 0.

(** The elements kept by [filepath.clean_elements], last first, are
    real elements above a run of [..]. *)
Definition stack_ok (out : list string) : Prop :=
  exists reals k,
    out = (reals ++ repeat ".." k)%list /\
    forallb valid_element reals = true.

End fs.
Export fs.

(** ** The framework's file serving *)

Definition indexPage : string := "index.html".

(** [http.ServeContent] for a request without range or conditional
    headers: status 200 and, unless the method is HEAD, the content.
    Failures of the body write are not reported. *)
Definition ServeContent (f : File) : Eff unit :=
  modify (fun w =>
    let r1 := echo.WriteHeader StatusOK (response w) in
    if (Method (request w) =? MethodHead)%string then set_response r1 w
    else set_response (fst (echo.Write (FileContent (Data f)) r1)) w).

Definition serve_file (f : File) : Eff error_value :=
  if ReadSeeker f then ServeContent f ;;; ret None
  else ret (Some (errorString "file does not implement io.ReadSeeker")).

(** [c.FileFS(file, filesystem)]: any failure of [Open] is
    [ErrNotFound]; a directory is replaced by its index page; the file is
    then served.  (The result of the first [Stat] is used without looking
    at its error.) *)
Definition FileFS (file : string) (filesystem : FS) : Eff error_value :=
  emit (FileFSCall file) ;;;
  match filesystem file with
  | None => ret (Some ErrNotFound)
  | Some f =>
      if IsDir f then
        let file := filepath.ToSlash (filepath.Join file indexPage) in
        match filesystem file with
        | None => ret (Some ErrNotFound)
        | Some f =>
            match Stat_err f with
            | Some err => ret (Some err)
            | None => serve_file f
            end
        end
      else serve_file f
  end.

(** ** The static handler *)

(** The name handed to the filesystem for a decoded path. *)
Definition resolved_name (p : string) : string :=
  filepath.ToSlash (filepath.Clean (TrimPrefix p "/")).

(** [StaticDirectoryHandler(fileSystem, indexFallback)], applied to the
    value [p] of the path parameter. *)
Definition StaticDirectoryHandler (fileSystem : FS) (indexFallback : bool)
           (p : string) : Eff error_value :=
  match url.PathUnescape p with
  | inr err => ret (Some (wrapError "failed to unescape path variable: " err))
  | inl tmpPath =>
      let p := tmpPath in
      let name := resolved_name p in
      fileErr <- FileFS name fileSystem ;;
      match fileErr with
      | Some e =>
          if indexFallback && Is e ErrNotFound
          then FileFS "index.html" fileSystem
          else ret fileErr
      | None => ret fileErr
      end
  end.

(** ** Sample requests and applications *)

Module Samples.

Definition fresh_response : Response :=
  {| Committed := false; Status := 0; Body := []; Writer_err := None |}.

Definition get_world : World :=
  {| request := mkRequest "GET" "/api/missing" "" "/api/missing";
     response := fresh_response; store := [] |}.

Definition head_world : World :=
  {| request := mkRequest "HEAD" "/api/missing" "" "/api/missing";
     response := fresh_response; store := [] |}.

(** The client has gone: writing the body fails. *)
Definition broken_pipe : error := errorString "write: broken pipe".

Definition disconnected_world : World :=
  {| request := mkRequest "GET" "/api/missing" "" "/api/missing";
     response := {| Committed := false; Status := 0; Body := [];
                    Writer_err := Some broken_pipe |};
     store := [] |}.


Definition plain_app : App :=
  {| IsDebug := false; beforeApiError := []; afterApiError := [] |}.

Definition debug_app : App :=
  {| IsDebug := true; beforeApiError := []; afterApiError := [] |}.

Definition after_failure : error := errorString "after observer failed".

(** A diagnostic-mode application whose after-chain has one failing
    observer. *)
Definition failing_after_app : App :=
  {| IsDebug := true; beforeApiError := [];
     afterApiError := [fun e w => (Some after_failure, e, w)] |}.

Definition boom : error := errorString "boom".

Definition regular (data : string) : File :=
  {| IsDir := false; Stat_err := None; ReadSeeker := true; Data := data |}.

(** A single-page application: an entry document, a script and a
    stream that cannot seek.  Unknown names are refused. *)
Definition site : FS :=
  fun name =>
    if (name =? "index.html")%string then Some (regular "<html>app</html>")
    else if (name =? "assets/app.js")%string then Some (regular "run()")
    else if (name =? "stream")%string
    then Some {| IsDir := false; Stat_err := None; ReadSeeker := false;
                 Data := "" |}
    else None.

(** A filesystem that resolves any name against a directory of the host
    without checking it: [../../etc/passwd] leaves that directory. *)
Definition unchecked_fs : FS :=
  fun name =>
    if (name =? "../../etc/passwd")%string then Some (regular "root:x:0:0")
    else if (name =? "index.html")%string then Some (regular "<html>app</html>")
    else None.

End Samples.

(** ** The catch-all route and the dispatch of a route handler *)

(** The handler of the catch-all route of [InitApi],
    [api.Any("/*", ...)]: whatever the request, [echo.ErrNotFound]. *)
Definition catchAll : Eff error_value := ret (Some ErrNotFound).

(** The framework's dispatch of a matched route: the route handler runs;
    a non-nil error it returns is handed to the error handler. *)
Definition dispatch (app : App) (h : Eff error_value) : Eff unit :=
  err <- h ;;
  match err with
  | None => ret tt
  | Some _ => HTTPErrorHandler app err
  end.

(** A text without percent sign. *)
Fixpoint no_percent (s : string) : bool :=
  match s with
  | EmptyString => true
  | String c rest => negb (c =? "%")%char && no_percent rest
  end.

(** The write the terminal action issues for the error object [a] and
    the request method. *)
Definition error_write (method : string) (a : ApiError) : Action :=
  if (method =? MethodHead)%string then NoContentCall (Code a)
  else JSONCall (Code a) (ApiError_json a).

(** A trigger of the chain [name]. *)
Definition is_trigger (name : HookName) (a : Action) : bool :=
  match a with
  | TriggerCall n => HookName_eqb n name
  | _ => false
  end.

(** ** Further samples: observers and errors *)

Module Scenarios.

(** An observer that answers the request itself: a maintenance page. *)
Definition maintenance_page : Handler :=
  fun e w =>
    (None, e,
     set_response {| Committed := true; Status := 503;
                     Body := [FileContent "maintenance"];
                     Writer_err := Writer_err (response w) |} w).

Definition takeover_app : App :=
  {| IsDebug := false; beforeApiError := [maintenance_page];
     afterApiError := [] |}.

(** An observer that points the event at another error object. *)
Definition redirect_event (p : ptr) : Handler :=
  fun _ w => (None, {| EventError := p |}, w).

(** [app] with one more observer at the end of its before-chain. *)
Definition with_before (app : App) (h : Handler) : App :=
  {| IsDebug := IsDebug app;
     beforeApiError := (beforeApiError app ++ [h])%list;
     afterApiError := afterApiError app |}.

(** A 403 [ApiError] at address 0, under a wrapper, inside an HTTP error
    of code 500. *)
Definition forbidden_inside : error :=
  E_HTTPError (mkHTTPError 500 (AnyString "Internal Server Error")
                 (Some (wrapError "handler: " (E_ApiError 0%nat)))).

Definition forbidden_world : World :=
  set_store [NewApiError 403 "Forbidden." AnyNil] Samples.get_world.

(** [echo.NewHTTPError(413, "too large")], wrapped. *)
Definition too_large : error :=
  E_HTTPError (mkHTTPError 413 (AnyString "too large") None).

End Scenarios.

(** The before-observers let the error response through: they return
    nil and leave the response uncommitted, and they leave the classified
    error object and the request method as they were. *)
Definition observers_pass (app : App) (err : error) (w : World) : Prop :=
  let rc := classify app err w in
  let ro := run_observers (OnBeforeApiError app)
                          {| EventError := result_of rc |} (world_of rc) in
  fst (result_of ro) = None /\
  Committed (response (world_of ro)) = false /\
  deref (store (world_of ro)) (result_of rc) =
  deref (store (world_of rc)) (result_of rc) /\
  Method (request (world_of ro)) = Method (request w).

(** The response after [http.ServeContent]: committed, and with status
    200 when it was not committed before. *)
Definition served (before after : Response) : Prop :=
  Committed after = true /\
  (Committed before = false -> Status after = 200).



(** ** Facts about the store and the monad *)

Section StoreFacts.

Lemma deref_alloc (h : heap) (a : ApiError) :
  deref (snd (alloc h a)) (fst (alloc h a)) = a.
Proof.
  unfold deref, alloc; simpl.
  rewrite app_nth2 by apply Nat.le_refl.
  now rewrite Nat.sub_diag.
Qed.

Lemma new_ApiError_run (a : ApiError) (w : World) :
  new_ApiError a w = (List.length (store w), set_store (store w ++ [a])%list w, []).
Proof. reflexivity. Qed.

Lemma bind_run {A B} (m : Eff A) (k : A -> Eff B) (w : World) :
  bind m k w =
  let r := m w in
  let r2 := k (result_of r) (world_of r) in
  (result_of r2, world_of r2, (trace_of r ++ trace_of r2)%list).
Proof.
  unfold bind. destruct (m w) as [[a w1] t1]. cbn.
  now destruct (k a w1) as [[b w2] t2].
Qed.

Lemma surjective_run {A} (r : A * World * list Action) :
  r = (result_of r, world_of r, trace_of r).
Proof. now destruct r as [[a w] t]. Qed.

End StoreFacts.

(** ** The classifier *)

Section Classifier.

Variable app : App.

Lemma when_log_world (b : bool) (args : list any) (w : World) :
  world_of (when b (log_Println args) w) = w.
Proof. destruct b; reflexivity. Qed.

Lemma classify_trace (err : error) (w : World) :
  forallb is_log (trace_of (classify app err w)) = true.
Proof.
  unfold classify.
  destruct (As_ApiError err) as [p|].
  - unfold bind, gets; simpl.
    destruct (IsDebug app && negb (is_nil (RawData (deref (store w) p)))); reflexivity.
  - destruct (As_HTTPError err) as [[v f]|].
    + unfold bind, gets; simpl.
      destruct (is_some (HTTPError_Internal f) && IsDebug app); reflexivity.
    + unfold bind; simpl.
      destruct (IsDebug app), (Is err ErrNoRows); reflexivity.
Qed.

Lemma classify_context (err : error) (w : World) :
  request (world_of (classify app err w)) = request w /\
  response (world_of (classify app err w)) = response w.
Proof.
  unfold classify.
  destruct (As_ApiError err) as [p|].
  - unfold bind, gets; simpl.
    destruct (IsDebug app && negb (is_nil (RawData (deref (store w) p)))); now split.
  - destruct (As_HTTPError err) as [[v f]|].
    + unfold bind, gets; simpl.
      destruct (is_some (HTTPError_Internal f) && IsDebug app); now split.
    + unfold bind; simpl.
      destruct (IsDebug app), (Is err ErrNoRows); now split.
Qed.

End Classifier.

(** ** The hook chains *)

Section Hooks.

Lemma run_handlers_cons (h : EffHandler) (rest : list EffHandler)
      (e : ApiErrorEvent) (w : World) :
  run_handlers (h :: rest) e w =
  let r := h e w in
  match fst (result_of r) with
  | Some err => ((Some err, snd (result_of r)), world_of r, trace_of r)
  | None =>
      let r2 := run_handlers rest (snd (result_of r)) (world_of r) in
      (result_of r2, world_of r2, (trace_of r ++ trace_of r2)%list)
  end.
Proof.
  simpl. unfold bind.
  destruct (h e w) as [[[r e1] w1] t1]. cbn.
  destruct r as [err|]; cbn.
  - now rewrite app_nil_r.
  - now destruct (run_handlers rest e1 w1) as [[x w2] t2].
Qed.

Lemma run_handlers_app (l1 l2 : list EffHandler) (e : ApiErrorEvent) (w : World) :
  run_handlers (l1 ++ l2) e w =
  let r1 := run_handlers l1 e w in
  match fst (result_of r1) with
  | Some _ => r1
  | None =>
      let r2 := run_handlers l2 (snd (result_of r1)) (world_of r1) in
      (result_of r2, world_of r2, (trace_of r1 ++ trace_of r2)%list)
  end.
Proof.
  revert e w. induction l1 as [|h l1 IH]; intros e w.
  - cbn. now destruct (run_handlers l2 e w) as [[x w2] t2].
  - rewrite <- app_comm_cons, !run_handlers_cons. cbv zeta.
    destruct (h e w) as [[[r e1] w1] t1]. cbn [result_of world_of trace_of fst snd].
    destruct r as [err|]; [reflexivity|].
    rewrite IH. cbv zeta.
    destruct (run_handlers l1 e1 w1) as [[[r2 e2] w2] t2].
    cbn [result_of world_of trace_of fst snd].
    destruct r2 as [err2|]; [reflexivity|].
    destruct (run_handlers l2 e2 w2) as [[x w3] t3].
    cbn [result_of world_of trace_of fst snd].
    now rewrite app_assoc.
Qed.

Lemma run_handlers_one (h : EffHandler) (e : ApiErrorEvent) (w : World) :
  run_handlers [h] e w = h e w.
Proof.
  rewrite run_handlers_cons. cbv zeta.
  destruct (h e w) as [[[r e1] w1] t1]. cbn.
  destruct r; cbn; [reflexivity | now rewrite app_nil_r].
Qed.

(** A trigger with one one-off handler: the observers, then, when none
    failed, the one-off handler. *)
Lemma Trigger_one_off (h : Hook) (t : EffHandler) (e : ApiErrorEvent) (w : World) :
  Trigger h e [t] w =
  let ro := run_observers h e w in
  match fst (result_of ro) with
  | Some _ =>
      (result_of ro, world_of ro, TriggerCall (hook_name h) :: trace_of ro)
  | None =>
      let rt := t (snd (result_of ro)) (world_of ro) in
      (result_of rt, world_of rt,
       TriggerCall (hook_name h) :: (trace_of ro ++ trace_of rt)%list)
  end.
Proof.
  unfold Trigger, run_observers. rewrite bind_run. cbv zeta.
  cbn [emit result_of world_of trace_of fst snd List.app].
  rewrite run_handlers_app. cbv zeta.
  destruct (fst (result_of _)); [reflexivity|].
  now rewrite run_handlers_one.
Qed.

Lemma Trigger_no_one_off (h : Hook) (e : ApiErrorEvent) (w : World) :
  Trigger h e [] w =
  let ro := run_observers h e w in
  (result_of ro, world_of ro, TriggerCall (hook_name h) :: trace_of ro).
Proof.
  unfold Trigger, run_observers. rewrite bind_run, app_nil_r. reflexivity.
Qed.

Lemma registered_run (name : HookName) (o : Handler) (e : ApiErrorEvent) (w : World) :
  registered name o e w =
  ((fst (fst (o e w)), snd (fst (o e w))), snd (o e w), [CallObserver name]).
Proof.
  unfold registered, bind, emit. now destruct (o e w) as [[r e1] w1].
Qed.

(** The observers' pass leaves in the trace one call per observer run,
    and nothing else. *)
Lemma run_observers_trace (h : Hook) (e : ApiErrorEvent) (w : World) :
  forallb (is_observer (hook_name h)) (trace_of (run_observers h e w)) = true.
Proof.
  unfold run_observers. generalize (handlers h) as hs. intros hs.
  revert e w. induction hs as [|o hs IH]; intros e w; [reflexivity|].
  rewrite map_cons, run_handlers_cons, registered_run. cbv zeta.
  destruct (o e w) as [[r e1] w1]. cbn [result_of world_of trace_of fst snd].
  destruct r as [err|]; cbn [result_of world_of trace_of fst snd].
  - cbn. now destruct (hook_name h).
  - rewrite forallb_app, IH. cbn. now destruct (hook_name h).
Qed.

End Hooks.

(** ** The handler, step by step *)

Section HandlerSteps.

Variable app : App.

(** On an uncommitted response the handler classifies, runs the
    before-chain with the terminal action, and then either the
    after-chain or the failure log. *)
Lemma HTTPErrorHandler_uncommitted (err : error) (w : World) :
  Committed (response w) = false ->
  let rc := classify app err w in
  let apiErr := result_of rc in
  let rb := Trigger (OnBeforeApiError app) {| EventError := apiErr |}
                    [sendErrorResponse apiErr] (world_of rc) in
  HTTPErrorHandler app (Some err) w =
  match fst (result_of rb) with
  | None =>
      let ra := Trigger (OnAfterApiError app) (snd (result_of rb)) [] (world_of rb) in
      (tt, world_of ra,
       (trace_of rc ++ trace_of rb ++ trace_of ra ++
        (if is_some (fst (result_of ra)) && IsDebug app
         then [Println [AnyNil]] else []))%list)
  | Some e =>
      (tt, world_of rb,
       (trace_of rc ++ trace_of rb ++
        (if IsDebug app then [Println [AnyError e]] else []))%list)
  end.
Proof.
  intros Hc rc apiErr rb. unfold HTTPErrorHandler.
  rewrite bind_run. cbn [gets result_of world_of trace_of fst snd List.app].
  cbv zeta. rewrite Hc, bind_run. cbv zeta.
  fold rc. fold apiErr. rewrite bind_run. cbv zeta. fold rb.
  destruct (fst (result_of rb)) as [e|].
  - cbn [any_of_error]. destruct (IsDebug app); cbn; now rewrite ?app_nil_r.
  - rewrite bind_run. cbv zeta. cbn [any_of_error].
    set (ra := Trigger (OnAfterApiError app) _ _ _).
    destruct (is_some (fst (result_of ra)) && IsDebug app); cbn;
      now rewrite ?app_nil_r.
Qed.

End HandlerSteps.

(** ** The terminal action *)

Section Terminal.

Variables (apiErr : ptr) (e : ApiErrorEvent) (w : World).

(** On a committed response the terminal action does nothing. *)
Lemma sendErrorResponse_committed :
  Committed (response w) = true ->
  sendErrorResponse apiErr e w = ((None, e), w, []).
Proof.
  intros Hc. unfold sendErrorResponse, bind, gets. now rewrite Hc.
Qed.

(** On an uncommitted response it issues one write, chosen by the
    request method. *)
Lemma sendErrorResponse_uncommitted :
  Committed (response w) = false ->
  sendErrorResponse apiErr e w =
  let a := deref (store w) apiErr in
  if (Method (request w) =? MethodHead)%string
  then ((None, e), set_response (echo.WriteHeader (Code a) (response w)) w,
        [NoContentCall (Code a)])
  else
    let r0 := {| Committed := Committed (response w); Status := Code a;
                 Body := Body (response w);
                 Writer_err := Writer_err (response w) |} in
    let wr := echo.Write (JSONDocument (ApiError_json a)) r0 in
    ((snd wr, e), set_response (fst wr) w, [JSONCall (Code a) (ApiError_json a)]).
Proof.
  intros Hc.
  unfold sendErrorResponse, echo.NoContent, echo.JSON, bind, gets, emit,
    modify, ret.
  rewrite Hc. cbv zeta.
  destruct (Method (request w) =? MethodHead)%string.
  - reflexivity.
  - rewrite Hc.
    destruct (echo.Write (JSONDocument _) _) as [r1 err]. reflexivity.
Qed.


Lemma sendErrorResponse_no_chain (name : HookName) :
  count (is_chain name) (trace_of (sendErrorResponse apiErr e w)) = 0%nat.
Proof.
  destruct (Committed (response w)) eqn:Hc.
  - now rewrite sendErrorResponse_committed.
  - rewrite sendErrorResponse_uncommitted by assumption. cbv zeta.
    now destruct (Method (request w) =? MethodHead)%string.
Qed.

End Terminal.

(** ** Counting in traces *)

Section Counting.

Lemma count_app (f : Action -> bool) (t1 t2 : list Action) :
  count f (t1 ++ t2) = (count f t1 + count f t2)%nat.
Proof. unfold count. now rewrite filter_app, length_app. Qed.

Lemma count_none (f g : Action -> bool) (t : list Action) :
  (forall a, g a = true -> f a = false) ->
  forallb g t = true -> count f t = 0%nat.
Proof.
  intros Hfg. unfold count. induction t as [|a t IH]; [reflexivity|].
  cbn. intros H. apply andb_true_iff in H as [Ha Ht].
  rewrite (Hfg a Ha). now apply IH.
Qed.

Lemma log_not_write (a : Action) : is_log a = true -> is_write a = false.
Proof. now destruct a. Qed.

Lemma log_not_chain (name : HookName) (a : Action) :
  is_log a = true -> is_chain name a = false.
Proof. now destruct a. Qed.

Lemma observer_not_write (name : HookName) (a : Action) :
  is_observer name a = true -> is_write a = false.
Proof. now destruct a. Qed.

Lemma observer_other_chain (a : Action) :
  is_observer BeforeApiError a = true -> is_chain AfterApiError a = false.
Proof. destruct a as [| |[]| | |]; easy. Qed.

Lemma when_log_count (f : Action -> bool) (b : bool) (args : list any) :
  f (Println args) = false ->
  count f (if b then [Println args] else []) = 0%nat.
Proof. intros H. destruct b; cbn; [now rewrite H | reflexivity]. Qed.

End Counting.

(** * The claims on the error handler *)

(** C9: with a nil error the handler returns at once: nothing is
    classified (the store is untouched), no event is built, no hook is
    triggered, nothing is logged and the response is not written: the
    world is unchanged and the trace is empty. *)
Theorem HTTPErrorHandler_nil_noop (app : App) (w : World) :
  HTTPErrorHandler app None w = (tt, w, []).
Proof. reflexivity. Qed.

(** C1: the classifier is total and follows the priority order.  For
    every error it returns the address of one [ApiError], leaving the
    request and the response alone:
    - when the chain carries a [*ApiError], that very object, the store
      being untouched;
    - otherwise one fresh object is allocated; when the chain carries a
      [*echo.HTTPError], it has that error's code, its message rendered
      with [%v], and the HTTP error as raw data;
    - otherwise its code is 404 when the chain carries [sql.ErrNoRows]
      and 400 for any other error. *)
Theorem classify_total_priority (app : App) (err : error) (w : World) :
  let r := classify app err w in
  let apiErr := result_of r in
  let w' := world_of r in
  request w' = request w /\ response w' = response w /\
  match As_ApiError err with
  | Some p => apiErr = p /\ store w' = store w
  | None =>
      apiErr = List.length (store w) /\
      store w' = (store w ++ [deref (store w') apiErr])%list /\
      match As_HTTPError err with
      | Some (v, h) =>
          deref (store w') apiErr =
          {| Code := HTTPError_Code h;
             Message := Sprintf_v (store w) (HTTPError_Message h);
             rawData := AnyError v |}
      | None =>
          Code (deref (store w') apiErr) =
          (if Is err ErrNoRows then 404 else 400)
      end
  end.
Proof.
  cbv zeta. split; [apply classify_context|].
  split; [apply classify_context|].
  unfold classify.
  destruct (As_ApiError err) as [p|].
  - unfold bind, gets. cbn.
    destruct (IsDebug app && negb (is_nil (RawData (deref (store w) p))));
      now split.
  - destruct (As_HTTPError err) as [[v h]|].
    + rewrite bind_run. cbv zeta. rewrite bind_run. cbv zeta.
      rewrite new_ApiError_run.
      cbn [result_of world_of trace_of fst snd gets].
      rewrite when_log_world.
      pose proof (deref_alloc (store w)
        (NewApiError (HTTPError_Code h)
           (Sprintf_v (store w) (HTTPError_Message h)) (AnyError v))) as Hd.
      unfold alloc in Hd; cbn [fst snd] in Hd. cbn [set_store store]. rewrite Hd. now repeat split.
    + rewrite bind_run. cbv zeta. rewrite when_log_world.
      destruct (Is err ErrNoRows); rewrite new_ApiError_run;
        cbn [result_of world_of trace_of fst snd set_store store].
      * pose proof (deref_alloc (store w)
          (NewNotFoundError "" (AnyError err))) as Hd.
        unfold alloc in Hd; cbn [fst snd] in Hd. rewrite Hd. now repeat split.
      * pose proof (deref_alloc (store w)
          (NewBadRequestError "" (AnyError err))) as Hd.
        unfold alloc in Hd; cbn [fst snd] in Hd. rewrite Hd. now repeat split.
Qed.

(** ** Writes and triggers in the handler's trace *)

Section HandlerTrace.

Variable app : App.

Lemma run_observers_writes (h : Hook) (e : ApiErrorEvent) (w : World) :
  count is_write (trace_of (run_observers h e w)) = 0%nat.
Proof.
  apply count_none with (g := is_observer (hook_name h)).
  - apply observer_not_write.
  - apply run_observers_trace.
Qed.


Lemma after_trigger_writes (e : ApiErrorEvent) (w : World) :
  count is_write (trace_of (Trigger (OnAfterApiError app) e [] w)) = 0%nat.
Proof.
  rewrite Trigger_no_one_off. cbv zeta. cbn [trace_of snd].
  change (TriggerCall ?n :: ?t) with ([TriggerCall n] ++ t)%list.
  now rewrite count_app, run_observers_writes.
Qed.

Lemma classify_writes (err : error) (w : World) :
  count is_write (trace_of (classify app err w)) = 0%nat.
Proof.
  apply count_none with (g := is_log);
    [apply log_not_write | apply classify_trace].
Qed.

Lemma classify_no_chain (name : HookName) (err : error) (w : World) :
  count (is_chain name) (trace_of (classify app err w)) = 0%nat.
Proof.
  apply count_none with (g := is_log);
    [apply log_not_chain | apply classify_trace].
Qed.

(** The handler on a committed response: at most the diagnostic line. *)
Lemma HTTPErrorHandler_committed (err : error) (w : World) :
  Committed (response w) = true ->
  HTTPErrorHandler app (Some err) w =
  (tt, w,
   if IsDebug app
   then [Println [AnyString "HTTPErrorHandler response was already committed:";
                  AnyError err]]
   else []).
Proof.
  intros Hc. unfold HTTPErrorHandler, bind, gets. rewrite Hc.
  now destruct (IsDebug app).
Qed.

End HandlerTrace.



Section TraceFilters.

Lemma filter_none (f : Action -> bool) (t : list Action) :
  count f t = 0%nat -> filter f t = [].
Proof. unfold count. apply length_zero_iff_nil. Qed.

Lemma count_zero_In (f : Action -> bool) (t : list Action) (a : Action) :
  count f t = 0%nat -> In a t -> f a = false.
Proof.
  intros H Ha. apply filter_none in H.
  destruct (f a) eqn:Hf; [|reflexivity].
  assert (In a (filter f t)) as Hin by (apply filter_In; now split).
  rewrite H in Hin. destruct Hin.
Qed.

End TraceFilters.

(** C3: the error response, by request method.  Take an error handled on
    an uncommitted response, whose before-observers all returned nil and
    left the response uncommitted, and let [a] be the [ApiError] at that
    point, with a valid status code.  The one write the handler issues is [NoContent(a.Code)] for a
    HEAD request and [JSON(a.Code, a)] otherwise, the document having
    exactly the members [code] and [message].  The terminal action sets
    the status to [a.Code]; it adds nothing to the body for HEAD, and the
    JSON document otherwise (when the connection takes it). *)
Theorem error_response_by_method (app : App) (err : error) (w : World) :
  Committed (response w) = false ->
  let rc := classify app err w in
  let apiErr := result_of rc in
  let ro := run_observers (OnBeforeApiError app) {| EventError := apiErr |}
                          (world_of rc) in
  let w2 := world_of ro in
  let a := deref (store w2) apiErr in
  let doc := [("code", JNumber (Code a)); ("message", JString (Message a))] in
  let rt := sendErrorResponse apiErr (snd (result_of ro)) w2 in
  let head := (Method (request w2) =? MethodHead)%string in
  fst (result_of ro) = None ->
  Committed (response w2) = false ->
  valid_status (Code a) ->
  filter is_write (trace_of (HTTPErrorHandler app (Some err) w)) =
    [if head then NoContentCall (Code a) else JSONCall (Code a) doc] /\
  Status (response (world_of rt)) = Code a /\
  Body (response (world_of rt)) =
    (if head then Body (response w2)
     else match Writer_err (response w2) with
          | None => Body (response w2) ++ [JSONDocument doc]
          | Some _ => Body (response w2)
          end)%list.
Proof.
  intros Hc rc apiErr ro w2 a doc rt head Hok Hc2 Hv.
  assert (rt =
    if head
    then ((None, snd (result_of ro)),
          set_response (echo.WriteHeader (Code a) (response w2)) w2,
          [NoContentCall (Code a)])
    else
      let r0 := {| Committed := Committed (response w2); Status := Code a;
                   Body := Body (response w2);
                   Writer_err := Writer_err (response w2) |} in
      let wr := echo.Write (JSONDocument (ApiError_json a)) r0 in
      ((snd wr, snd (result_of ro)), set_response (fst wr) w2,
       [JSONCall (Code a) (ApiError_json a)])) as Hrt
    by (apply sendErrorResponse_uncommitted; assumption).
  split.
  - rewrite HTTPErrorHandler_uncommitted by assumption. cbv zeta.
    fold rc. fold apiErr.
    rewrite Trigger_one_off. cbv zeta. fold ro. rewrite Hok.
    fold w2. fold rt. cbn [result_of world_of trace_of fst snd].
    assert (filter is_write (trace_of rc) = []) as Fc
      by (apply filter_none, classify_writes).
    assert (filter is_write (trace_of ro) = []) as Fo
      by (apply filter_none, run_observers_writes).
    assert (filter is_write (trace_of rt) =
            [if head then NoContentCall (Code a) else JSONCall (Code a) doc]) as Ft
      by (rewrite Hrt; now destruct head).
    destruct (fst (result_of rt)) as [e|]; cbn [trace_of snd].
    + rewrite !filter_app, Fc. cbn [filter is_write List.app].
      rewrite filter_app, Fo, Ft. cbn [List.app].
      now destruct (IsDebug app).
    + rewrite !filter_app, Fc. cbn [filter is_write List.app].
      rewrite filter_app, Fo, Ft. cbn [List.app].
      assert (filter is_write
                (trace_of (Trigger (OnAfterApiError app) (snd (result_of rt)) []
                                   (world_of rt))) = []) as Fa
        by (apply filter_none, after_trigger_writes).
      rewrite Fa.
      destruct (is_some _ && IsDebug app); reflexivity.
  - rewrite Hrt. destruct head.
    + cbn. unfold echo.WriteHeader. rewrite Hc2. now split.
    + cbv zeta. unfold echo.Write, echo.WriteHeader.
      cbn [Committed Status Body Writer_err]. rewrite Hc2.
      cbn [Committed Status Body Writer_err].
      assert ((Code a =? 0) = false) as E
        by (apply Z.eqb_neq; unfold valid_status in Hv; lia).
      rewrite E.
      now destruct (Writer_err (response w2)).
Qed.

(** A request failing with a generic error: with GET, one JSON write
    with status 400 and the two members; with HEAD, one bodyless write
    with status 400. *)
Lemma error_response_by_method_witness :
  Committed (response Samples.get_world) = false /\
  filter is_write
    (trace_of (HTTPErrorHandler Samples.plain_app (Some Samples.boom)
                                Samples.get_world)) =
    [JSONCall 400 [("code", JNumber 400); ("message", JString "")]] /\
  filter is_write
    (trace_of (HTTPErrorHandler Samples.plain_app (Some Samples.boom)
                                Samples.head_world)) =
    [NoContentCall 400].
Proof.
  split; [reflexivity|]. split.
  - apply (error_response_by_method Samples.plain_app Samples.boom
             Samples.get_world); try reflexivity.
    unfold valid_status. vm_compute. split; discriminate.
  - apply (error_response_by_method Samples.plain_app Samples.boom
             Samples.head_world); try reflexivity.
    unfold valid_status. vm_compute. split; discriminate.
Defined.

(** C7: a failing terminal write ends the handling.  When the
    before-observers returned nil and the terminal action then fails with
    [e'], the handler stops in the world the failed write left: its trace
    is the classification, the before-trigger with its observers, the one
    JSON write, and in diagnostic mode the log line of [e'].  The
    after-chain is not triggered and the write is not issued again. *)
Theorem terminal_failure_is_final (app : App) (err : error) (w : World) (e' : error) :
  Committed (response w) = false ->
  let rc := classify app err w in
  let apiErr := result_of rc in
  let ro := run_observers (OnBeforeApiError app) {| EventError := apiErr |}
                          (world_of rc) in
  let w2 := world_of ro in
  let a := deref (store w2) apiErr in
  let rt := sendErrorResponse apiErr (snd (result_of ro)) w2 in
  fst (result_of ro) = None ->
  fst (result_of rt) = Some e' ->
  HTTPErrorHandler app (Some err) w =
    (tt, world_of rt,
     (trace_of rc ++ TriggerCall BeforeApiError :: trace_of ro ++
      [JSONCall (Code a) (ApiError_json a)] ++
      (if IsDebug app then [Println [AnyError e']] else []))%list) /\
  count is_write (trace_of (HTTPErrorHandler app (Some err) w)) = 1%nat /\
  count (is_chain AfterApiError) (trace_of (HTTPErrorHandler app (Some err) w)) = 0%nat.
Proof.
  intros Hc rc apiErr ro w2 a rt Hok Hfail.
  assert (trace_of rt = [JSONCall (Code a) (ApiError_json a)]) as Ht.
  { subst rt. destruct (Committed (response w2)) eqn:Hc2.
    - rewrite sendErrorResponse_committed in Hfail by assumption. discriminate.
    - rewrite sendErrorResponse_uncommitted in Hfail |- * by assumption.
      cbv zeta in Hfail |- *.
      destruct (Method (request w2) =? MethodHead)%string;
        [discriminate | reflexivity]. }
  assert (HTTPErrorHandler app (Some err) w =
    (tt, world_of rt,
     (trace_of rc ++ TriggerCall BeforeApiError :: trace_of ro ++
      [JSONCall (Code a) (ApiError_json a)] ++
      (if IsDebug app then [Println [AnyError e']] else []))%list)) as Heq.
  { rewrite HTTPErrorHandler_uncommitted by assumption. cbv zeta.
    fold rc. fold apiErr. rewrite Trigger_one_off. cbv zeta. fold ro.
    rewrite Hok. fold w2. fold rt.
    cbn [result_of world_of trace_of fst snd].
    fold (result_of rt). rewrite Hfail. rewrite Ht.
    cbn [hook_name OnBeforeApiError].
    now rewrite <- app_comm_cons, <- app_assoc. }
  split; [exact Heq|]. rewrite Heq. cbn [trace_of snd].
  change (TriggerCall ?n :: ?t) with ([TriggerCall n] ++ t)%list.
  rewrite !count_app.
  pose proof (classify_writes app err w : count is_write (trace_of rc) = 0%nat) as W1.
  pose proof (run_observers_writes (OnBeforeApiError app) _ _
              : count is_write (trace_of ro) = 0%nat) as W2.
  pose proof (classify_no_chain app AfterApiError err w
              : count (is_chain AfterApiError) (trace_of rc) = 0%nat) as A1.
  pose proof (count_none (is_chain AfterApiError) (is_observer BeforeApiError)
                (trace_of ro) observer_other_chain
                (run_observers_trace (OnBeforeApiError app) _ _)) as A2.
  split.
  - rewrite W1, W2, when_log_count by reflexivity. reflexivity.
  - rewrite A1, A2, when_log_count by reflexivity. reflexivity.
Qed.

(** The client of [Samples.disconnected_world] has gone: in diagnostic
    mode the handler logs the error, tries the write once, logs its
    failure and stops. *)
Lemma terminal_failure_is_final_witness :
  HTTPErrorHandler Samples.debug_app (Some Samples.boom)
                   Samples.disconnected_world =
  (tt,
   {| request := request Samples.disconnected_world;
      response := {| Committed := true; Status := 400; Body := [];
                     Writer_err := Some Samples.broken_pipe |};
      store := [NewBadRequestError "" (AnyError Samples.boom)] |},
   [Println [AnyError Samples.boom];
    TriggerCall BeforeApiError;
    JSONCall 400 [("code", JNumber 400); ("message", JString "")];
    Println [AnyError Samples.broken_pipe]]).
Proof.
  apply (terminal_failure_is_final Samples.debug_app Samples.boom
           Samples.disconnected_world Samples.broken_pipe); reflexivity.
Defined.

(** ** The after-chain *)

Section AfterChain.

Variables (app : App) (err : error) (w : World).
Hypothesis uncommitted : Committed (response w) = false.

Let rc := classify app err w.
Let rb := Trigger (OnBeforeApiError app) {| EventError := result_of rc |}
                  [sendErrorResponse (result_of rc)] (world_of rc).

(** The after-chain is triggered exactly when the before-pass, terminal
    action included, returned nil. *)
Lemma after_chain_iff_before_ok :
  In (TriggerCall AfterApiError)
     (trace_of (HTTPErrorHandler app (Some err) w)) <->
  fst (result_of rb) = None.
Proof.
  rewrite HTTPErrorHandler_uncommitted by assumption. cbv zeta.
  fold rc. fold rb.
  assert (count (is_chain AfterApiError) (trace_of rc) = 0%nat) as A1
    by apply classify_no_chain.
  assert (count (is_chain AfterApiError) (trace_of rb) = 0%nat) as A2.
  { unfold rb. rewrite Trigger_one_off. cbv zeta.
    pose proof (count_none (is_chain AfterApiError) (is_observer BeforeApiError)
                  _ observer_other_chain
                  (run_observers_trace (OnBeforeApiError app)
                     {| EventError := result_of rc |} (world_of rc))) as Ho.
    destruct (fst (result_of (run_observers _ _ _))); cbn [trace_of snd];
      change (TriggerCall ?n :: ?t) with ([TriggerCall n] ++ t)%list;
      rewrite ?count_app, Ho, ?sendErrorResponse_no_chain; reflexivity. }
  destruct (fst (result_of rb)) as [e|]; cbn [trace_of snd].
  - split; [|discriminate]. intros Hin.
    apply in_app_or in Hin as [Hin|Hin];
      [apply (count_zero_In _ _ _ A1) in Hin; discriminate|].
    apply in_app_or in Hin as [Hin|Hin];
      [apply (count_zero_In _ _ _ A2) in Hin; discriminate|].
    destruct (IsDebug app); cbn in Hin; [destruct Hin as [Hin|[]]|destruct Hin].
    discriminate.
  - split; [reflexivity|]. intros _.
    rewrite Trigger_no_one_off. cbv zeta. cbn [trace_of snd].
    apply in_or_app. right. apply in_or_app. right.
    apply in_or_app. left. now left.
Qed.

(** When an after-observer fails, the handler adds one log line in
    diagnostic mode, and the value it prints is the nil [hookErr] of the
    before-pass.  It does nothing else: the world is the one the
    after-chain left. *)
Lemma after_failure_logs_hookErr :
  fst (result_of rb) = None ->
  let ra := Trigger (OnAfterApiError app) (snd (result_of rb)) [] (world_of rb) in
  is_some (fst (result_of ra)) = true ->
  HTTPErrorHandler app (Some err) w =
  (tt, world_of ra,
   (trace_of rc ++ trace_of rb ++ trace_of ra ++
    (if IsDebug app then [Println [AnyNil]] else []))%list).
Proof.
  intros Hb ra Ha.
  rewrite HTTPErrorHandler_uncommitted by assumption. cbv zeta.
  fold rc. fold rb. rewrite Hb. fold ra. now rewrite Ha.
Qed.

End AfterChain.

(** C6, evaluated where it fails: a diagnostic-mode application whose
    after-observer fails with [Samples.after_failure].  The handler
    classifies (and logs) the error, writes the JSON response, triggers
    the after-chain, whose observer fails; the line then logged prints
    nil, and the observer's error is in no log line. *)
Theorem after_failure_is_not_logged :
  let t := trace_of (HTTPErrorHandler Samples.failing_after_app (Some Samples.boom)
                                      Samples.get_world) in
  t = [Println [AnyError Samples.boom];
       TriggerCall BeforeApiError;
       JSONCall 400 [("code", JNumber 400); ("message", JString "")];
       TriggerCall AfterApiError;
       CallObserver AfterApiError;
       Println [AnyNil]] /\
  ~ In (Println [AnyError Samples.after_failure]) t.
Proof.
  cbv zeta. split; [reflexivity|].
  cbn. intros H.
  repeat (destruct H as [H|H]; [discriminate H|]).
  exact H.
Qed.

(** * The trailing-slash middleware *)

Section StringFacts.

Lemma substring_all (s : string) : substring 0 (String.length s) s = s.
Proof. induction s as [|c s IH]; cbn; [reflexivity | now rewrite IH]. Qed.

Lemma substring_split (s : string) (n : nat) :
  (n <= String.length s)%nat ->
  substring 0 n s ++ substring n (String.length s - n) s = s.
Proof.
  revert n. induction s as [|c s IH]; intros n Hn.
  - cbn in Hn. assert (n = 0%nat) as -> by lia. reflexivity.
  - destruct n as [|n].
    + rewrite Nat.sub_0_r.
      change (substring 0 0 (String c s)) with EmptyString.
      apply (substring_all (String c s)).
    + cbn. f_equal. apply IH. cbn in Hn. lia.
Qed.

Lemma HasPrefix_length (s prefix : string) :
  HasPrefix s prefix = true -> (String.length prefix <= String.length s)%nat.
Proof.
  unfold HasPrefix. intros H. apply andb_true_iff in H as [H _].
  now apply Nat.leb_le.
Qed.

Lemma HasSuffix_split (s suffix : string) :
  HasSuffix s suffix = true ->
  s = substring 0 (String.length s - String.length suffix) s ++ suffix.
Proof.
  unfold HasSuffix. intros H. apply andb_true_iff in H as [Hl He].
  apply Nat.leb_le in Hl. apply String.eqb_eq in He.
  set (k := (String.length s - String.length suffix)%nat) in *.
  rewrite <- (substring_split s k) at 1 by (unfold k; lia).
  f_equal.
  replace (String.length s - k)%nat with (String.length suffix)
    by (unfold k; lia).
  exact He.
Qed.

End StringFacts.

(** C8: the middleware acts exactly on the paths under [/api/].  The
    skipper skips a request exactly when its path does not start with
    [/api/]; a skipped request passes unchanged; a request under [/api/]
    whose path ends in a slash has that one slash cut (the old path is the
    new one followed by a slash, the method and query are kept), and one
    whose path has no trailing slash passes unchanged. *)
Theorem trailing_slash_only_under_api (req : Request) :
  let req' := RemoveTrailingSlash Skipper req in
  Skipper req = negb (HasPrefix (URL_Path req) "/api/") /\
  (HasPrefix (URL_Path req) "/api/" = false -> req' = req) /\
  (HasPrefix (URL_Path req) "/api/" = true ->
   if HasSuffix (URL_Path req) "/"
   then URL_Path req = URL_Path req' ++ "/" /\
        Method req' = Method req /\ URL_RawQuery req' = URL_RawQuery req
   else req' = req).
Proof.
  cbv zeta. split; [reflexivity|]. split.
  - intros H. unfold RemoveTrailingSlash, Skipper. now rewrite H.
  - intros H. unfold RemoveTrailingSlash, Skipper. rewrite H. cbn [negb].
    pose proof (HasPrefix_length _ _ H) as Hlen. cbn in Hlen.
    destruct (HasSuffix (URL_Path req) "/") eqn:Hs.
    + assert ((0 <? Z.of_nat (String.length (URL_Path req)) - 1) = true) as ->
        by (apply Z.ltb_lt; lia).
      cbn [andb URL_Path Method URL_RawQuery].
      repeat split.
      replace (Z.to_nat (Z.of_nat (String.length (URL_Path req)) - 1))
        with (String.length (URL_Path req) - String.length "/")%nat
        by (cbn; lia).
      now apply HasSuffix_split.
    + now rewrite andb_false_r.
Qed.

(** [/static/] is left alone; [/api/records/] loses its slash. *)
Lemma trailing_slash_only_under_api_witness :
  RemoveTrailingSlash Skipper (mkRequest "GET" "/static/" "" "/static/")
  = mkRequest "GET" "/static/" "" "/static/" /\
  "/api/records/" =
  URL_Path (RemoveTrailingSlash Skipper
              (mkRequest "GET" "/api/records/" "" "/api/records/")) ++ "/".
Proof.
  split.
  - apply (trailing_slash_only_under_api
             (mkRequest "GET" "/static/" "" "/static/")). reflexivity.
  - apply (trailing_slash_only_under_api
             (mkRequest "GET" "/api/records/" "" "/api/records/") : _ /\ _ /\ _).
    reflexivity.
Defined.

(** * The static handler *)

Section FileServing.

Variables (fileSystem : FS) (w : World).

Lemma FileFS_trace (file : string) :
  trace_of (FileFS file fileSystem w) = [FileFSCall file].
Proof.
  unfold FileFS, serve_file, ServeContent, bind, emit, modify, ret. cbn.
  destruct (fileSystem file) as [f|]; [|reflexivity].
  destruct (IsDir f).
  - destruct (fileSystem _) as [f2|]; [|reflexivity].
    destruct (Stat_err f2); [reflexivity|].
    now destruct (ReadSeeker f2).
  - now destruct (ReadSeeker f).
Qed.

Lemma FileFS_open_fails (file : string) :
  fileSystem file = None ->
  FileFS file fileSystem w = (Some ErrNotFound, w, [FileFSCall file]).
Proof.
  intros H. unfold FileFS, bind, emit, ret. cbn. now rewrite H.
Qed.

(** A regular, seekable file is served: status 200 on an uncommitted
    response, and the content unless the method is HEAD. *)
Lemma FileFS_regular (file : string) (f : File) :
  fileSystem file = Some f -> IsDir f = false -> ReadSeeker f = true ->
  FileFS file fileSystem w =
  (None,
   (let r1 := echo.WriteHeader StatusOK (response w) in
    if (Method (request w) =? MethodHead)%string then set_response r1 w
    else set_response (fst (echo.Write (FileContent (Data f)) r1)) w),
   [FileFSCall file]).
Proof.
  intros H Hd Hs.
  unfold FileFS, serve_file, ServeContent, bind, emit, modify, ret. cbn.
  now rewrite H, Hd, Hs.
Qed.

End FileServing.

Section StaticHandler.

Variables (fileSystem : FS) (indexFallback : bool) (p : string) (w : World).

Lemma StaticDirectoryHandler_decoded (tmpPath : string) :
  url.PathUnescape p = inl tmpPath ->
  StaticDirectoryHandler fileSystem indexFallback p w =
  let r1 := FileFS (resolved_name tmpPath) fileSystem w in
  match result_of r1 with
  | Some e =>
      if indexFallback && Is e ErrNotFound
      then let r2 := FileFS "index.html" fileSystem (world_of r1) in
           (result_of r2, world_of r2, (trace_of r1 ++ trace_of r2)%list)
      else r1
  | None => r1
  end.
Proof.
  intros Hp. unfold StaticDirectoryHandler. rewrite Hp.
  rewrite bind_run. cbv zeta.
  destruct (result_of (FileFS _ fileSystem w)) as [e|] eqn:He.
  - destruct (indexFallback && Is e ErrNotFound).
    + reflexivity.
    + cbn. rewrite app_nil_r. rewrite <- He. symmetry. apply surjective_run.
  - cbn. rewrite app_nil_r. rewrite <- He. symmetry. apply surjective_run.
Qed.

End StaticHandler.

(** The classification of [echo.ErrNotFound]: a fresh [ApiError] with
    code 404 and the framework's message. *)
Lemma classify_ErrNotFound (app : App) (w : World) :
  let r := classify app ErrNotFound w in
  deref (store (world_of r)) (result_of r) =
  {| Code := 404; Message := "Not Found"; rawData := AnyError ErrNotFound |}.
Proof.
  cbv zeta. unfold classify. cbn [As_ApiError As_HTTPError].
  rewrite bind_run. cbv zeta. rewrite bind_run. cbv zeta.
  rewrite new_ApiError_run.
  cbn [result_of world_of trace_of fst snd set_store store].
  pose proof (deref_alloc (store w)
    (NewApiError 404 "Not Found" (AnyError ErrNotFound))) as Hd.
  unfold alloc in Hd; cbn [fst snd] in Hd.
  cbn [ErrNotFound_fields HTTPError_Internal is_some andb when].
  cbn [ret world_of fst snd store]. exact Hd.
Qed.

(** C4: a missing file.  When the path decodes and the filesystem cannot
    open the resolved name:
    - without [indexFallback], the handler returns [echo.ErrNotFound] and
      writes nothing;
    - with [indexFallback] and no [index.html], it returns
      [echo.ErrNotFound] after trying both names;
    - with [indexFallback] and a regular [index.html], it returns nil,
      having served that document: on an uncommitted response the status
      is 200 and the body, unless the method is HEAD, is the document
      (when the connection takes it).
    [echo.ErrNotFound] classifies to the [ApiError] with code 404, whose
    JSON document is [{code: 404, message: "Not Found"}]. *)
Theorem static_missing_file (fileSystem : FS) (indexFallback : bool)
        (p tmpPath : string) (w : World) :
  url.PathUnescape p = inl tmpPath ->
  fileSystem (resolved_name tmpPath) = None ->
  let name := resolved_name tmpPath in
  let r := StaticDirectoryHandler fileSystem indexFallback p w in
  (indexFallback = false -> r = (Some ErrNotFound, w, [FileFSCall name])) /\
  (indexFallback = true -> fileSystem "index.html" = None ->
   r = (Some ErrNotFound, w, [FileFSCall name; FileFSCall "index.html"])) /\
  (indexFallback = true ->
   forall f, fileSystem "index.html" = Some f ->
   IsDir f = false -> ReadSeeker f = true ->
   Committed (response w) = false ->
   result_of r = None /\
   trace_of r = [FileFSCall name; FileFSCall "index.html"] /\
   Status (response (world_of r)) = 200 /\
   Body (response (world_of r)) =
     (if (Method (request w) =? MethodHead)%string then Body (response w)
      else match Writer_err (response w) with
           | None => Body (response w) ++ [FileContent (Data f)]
           | Some _ => Body (response w)
           end)%list) /\
  (forall (app : App) (w' : World),
     let rc := classify app ErrNotFound w' in
     ApiError_json (deref (store (world_of rc)) (result_of rc)) =
     [("code", JNumber 404); ("message", JString "Not Found")]).
Proof.
  intros Hp Hopen name r.
  assert (r =
    if indexFallback
    then let r2 := FileFS "index.html" fileSystem w in
         (result_of r2, world_of r2, (FileFSCall name :: trace_of r2))
    else (Some ErrNotFound, w, [FileFSCall name])) as Hr.
  { unfold r. rewrite (StaticDirectoryHandler_decoded _ _ _ _ _ Hp).
    cbv zeta. rewrite (FileFS_open_fails _ _ _ Hopen).
    cbn [result_of world_of trace_of fst snd Is is_sentinel orb andb].
    rewrite andb_true_r. now destruct indexFallback. }
  split; [|split; [|split]].
  - intros ->. exact Hr.
  - intros -> Hidx. rewrite Hr. cbv zeta.
    now rewrite (FileFS_open_fails _ _ _ Hidx).
  - intros -> f Hidx Hdir Hseek Hc. rewrite Hr. cbv zeta.
    rewrite (FileFS_regular _ _ _ _ Hidx Hdir Hseek).
    cbn [result_of world_of trace_of fst snd].
    split; [reflexivity|]. split; [reflexivity|].
    unfold echo.WriteHeader. rewrite Hc.
    destruct (Method (request w) =? MethodHead)%string; [now split|].
    unfold echo.Write. cbn [Committed Writer_err Body].
    now destruct (Writer_err (response w)).
  - intros app w'. cbv zeta. now rewrite classify_ErrNotFound.
Qed.

(** [/dashboard] is no file of [Samples.site]: without fallback the
    handler answers [echo.ErrNotFound]; with it, the entry document is
    served with status 200. *)
Lemma static_missing_file_witness :
  StaticDirectoryHandler Samples.site false "dashboard" Samples.get_world =
    (Some ErrNotFound, Samples.get_world, [FileFSCall "dashboard"]) /\
  Status (response (world_of
    (StaticDirectoryHandler Samples.site true "dashboard" Samples.get_world))) = 200.
Proof.
  split.
  - apply (static_missing_file Samples.site false "dashboard" "dashboard"
             Samples.get_world); reflexivity.
  - apply (static_missing_file Samples.site true "dashboard" "dashboard"
             Samples.get_world eq_refl eq_refl) with (f := Samples.regular "<html>app</html>");
      reflexivity.
Defined.

(** C10: only a not-found failure falls back to the entry document.
    When the path decodes and serving the resolved name fails with an
    error [e] that is not [echo.ErrNotFound] (nor wraps it), the handler
    is that one serving attempt, whatever [indexFallback]: it returns [e]
    and [index.html] is not tried in its place.  When the path does not
    decode, the handler returns the decoding error wrapped with [%w],
    without calling the filesystem or touching the response. *)
Theorem fallback_only_on_not_found (fileSystem : FS) (indexFallback : bool)
        (p : string) (w : World) :
  (forall (tmpPath : string) (e : error),
     url.PathUnescape p = inl tmpPath ->
     result_of (FileFS (resolved_name tmpPath) fileSystem w) = Some e ->
     Is e ErrNotFound = false ->
     StaticDirectoryHandler fileSystem indexFallback p w =
       FileFS (resolved_name tmpPath) fileSystem w /\
     result_of (StaticDirectoryHandler fileSystem indexFallback p w) = Some e /\
     trace_of (StaticDirectoryHandler fileSystem indexFallback p w) =
       [FileFSCall (resolved_name tmpPath)]) /\
  (forall err : error,
     url.PathUnescape p = inr err ->
     StaticDirectoryHandler fileSystem indexFallback p w =
       (Some (wrapError "failed to unescape path variable: " err), w, [])).
Proof.
  split.
  - intros tmpPath e Hp He Hnf.
    assert (StaticDirectoryHandler fileSystem indexFallback p w =
            FileFS (resolved_name tmpPath) fileSystem w) as Heq.
    { rewrite (StaticDirectoryHandler_decoded _ _ _ _ _ Hp). cbv zeta.
      rewrite He, Hnf. now rewrite andb_false_r. }
    split; [exact Heq|]. rewrite Heq. split; [exact He|].
    apply FileFS_trace.
  - intros err Hp. unfold StaticDirectoryHandler. now rewrite Hp.
Qed.

(** [stream] of [Samples.site] cannot seek: the handler returns that
    error although the fallback is on.  [%zz] does not decode. *)
Lemma fallback_only_on_not_found_witness :
  StaticDirectoryHandler Samples.site true "stream" Samples.get_world =
    (Some (errorString "file does not implement io.ReadSeeker"),
     Samples.get_world, [FileFSCall "stream"]) /\
  StaticDirectoryHandler Samples.site true "%zz" Samples.get_world =
    (Some (wrapError "failed to unescape path variable: " (EscapeError "%zz")),
     Samples.get_world, []).
Proof.
  destruct (fallback_only_on_not_found Samples.site true "stream"
              Samples.get_world) as [H1 _].
  destruct (fallback_only_on_not_found Samples.site true "%zz"
              Samples.get_world) as [_ H2].
  split.
  - apply (H1 "stream" (errorString "file does not implement io.ReadSeeker")
              eq_refl eq_refl eq_refl).
  - apply (H2 (EscapeError "%zz") eq_refl).
Defined.

(** * Path cleaning *)

Section SplitFacts.

Lemma split_slash_no_slash (s : string) :
  forallb no_slash (split_slash s) = true.
Proof.
  induction s as [|c s IH]; cbn; [reflexivity|].
  destruct (c =? "/")%char eqn:Hc; [exact IH|].
  destruct (split_slash s) as [|e es]; cbn in *; rewrite Hc; cbn.
  - reflexivity.
  - exact IH.
Qed.

Lemma split_slash_element (x : string) :
  no_slash x = true -> split_slash x = [x].
Proof.
  induction x as [|c x IH]; cbn; [reflexivity|].
  intros H. apply andb_true_iff in H as [Hc Hx].
  apply negb_true_iff in Hc. rewrite Hc, (IH Hx). reflexivity.
Qed.

Lemma split_slash_app (x rest : string) :
  no_slash x = true ->
  split_slash (x ++ String "/" rest) = x :: split_slash rest.
Proof.
  induction x as [|c x IH]; cbn; [reflexivity|].
  intros H. apply andb_true_iff in H as [Hc Hx].
  apply negb_true_iff in Hc. rewrite Hc, (IH Hx). reflexivity.
Qed.

Lemma split_slash_concat (l : list string) :
  l <> [] -> forallb no_slash l = true ->
  split_slash (String.concat "/" l) = l.
Proof.
  induction l as [|x l IH]; [congruence|]. intros _ H.
  cbn in H. apply andb_true_iff in H as [Hx Hl].
  destruct l as [|y l].
  - cbn. now apply split_slash_element.
  - change (String.concat "/" (x :: y :: l))
      with (x ++ String "/" (String.concat "/" (y :: l))).
    rewrite split_slash_app by assumption.
    f_equal. apply IH; [discriminate | assumption].
Qed.

End SplitFacts.

Section CleanFacts.

Example Clean_samples :
  map filepath.Clean
      ["../../etc/passwd"; "a/../b"; "a/b/../../.."; "/../a"; "//etc/passwd";
       ""; "a//b/./c/"; "../a/../../b"] =
  ["../../etc/passwd"; "b"; ".."; "/a"; "/etc/passwd"; "."; "a/b/c"; "../../b"].
Proof. reflexivity. Qed.

Example resolved_name_samples :
  map resolved_name ["/assets/app.js"; "/"; "/a/./b/../c/"; "//etc/passwd"] =
  ["assets/app.js"; "."; "a/c"; "/etc/passwd"].
Proof. reflexivity. Qed.

Example PathUnescape_samples :
  map url.PathUnescape ["%2e%2e/x"; "a+b%20c"; "%zz"; "a%4"] =
  [inl "../x"; inl "a+b c"; inr (EscapeError "%zz"); inr (EscapeError "%4")].
Proof. reflexivity. Qed.

Lemma stack_ok_nil : stack_ok [].
Proof. now exists [], 0%nat. Qed.

Lemma stack_ok_push (e : string) (out : list string) :
  valid_element e = true -> stack_ok out -> stack_ok (e :: out).
Proof.
  intros He (reals & k & -> & Hr).
  exists (e :: reals), k. cbn. now rewrite He, Hr.
Qed.

Lemma stack_ok_dotdot (out : list string) :
  stack_ok (".." :: out) -> stack_ok (".." :: ".." :: out).
Proof.
  intros (reals & k & Heq & Hr).
  destruct reals as [|r reals].
  - exists [], (S k). cbn in *. now rewrite <- Heq.
  - cbn in Heq, Hr. injection Heq as <- _. discriminate Hr.
Qed.

Lemma stack_ok_pop (top : string) (out : list string) :
  (top =? "..")%string = false -> stack_ok (top :: out) -> stack_ok out.
Proof.
  intros Ht (reals & k & Heq & Hr).
  destruct reals as [|r reals].
  - destruct k as [|k]; cbn in Heq; [discriminate|].
    injection Heq as -> _. discriminate Ht.
  - cbn in Heq, Hr. injection Heq as _ ->.
    apply andb_true_iff in Hr as [_ Hr]. now exists reals, k.
Qed.

Lemma rev_repeat_dotdot (k : nat) :
  rev (repeat ".." k) = repeat ".." k.
Proof.
  induction k as [|k IH]; [reflexivity|].
  cbn. rewrite IH. clear IH.
  induction k as [|k IH]; [reflexivity|]. cbn. now rewrite IH.
Qed.

Lemma forallb_rev {A} (f : A -> bool) (l : list A) :
  forallb f (rev l) = forallb f l.
Proof.
  induction l as [|a l IH]; [reflexivity|].
  cbn. rewrite forallb_app, IH. cbn. rewrite andb_true_r. apply andb_comm.
Qed.

(** The cleaned elements: a run of [..], then real elements; all of
    them without slash. *)
Lemma clean_elements_shape (rooted : bool) (elems out : list string) :
  forallb no_slash elems = true ->
  forallb no_slash out = true ->
  stack_ok out ->
  exists k reals,
    filepath.clean_elements rooted elems out = (repeat ".." k ++ reals)%list /\
    forallb valid_element reals = true /\
    forallb no_slash (repeat ".." k ++ reals) = true.
Proof.
  revert out. induction elems as [|e rest IH]; intros out He Ho Hs.
  - destruct Hs as (reals & k & -> & Hr). cbn.
    exists k, (rev reals).
    rewrite rev_app_distr, rev_repeat_dotdot. split; [reflexivity|].
    split; [now rewrite forallb_rev|].
    rewrite <- rev_repeat_dotdot, <- rev_app_distr, forallb_rev. exact Ho.
  - cbn in He. apply andb_true_iff in He as [He Hrest].
    cbn [filepath.clean_elements].
    destruct ((e =? "")%string || (e =? ".")%string) eqn:Hskip;
      [now apply IH|].
    apply orb_false_iff in Hskip as [He1 He2].
    destruct (e =? "..")%string eqn:Hdd.
    + apply String.eqb_eq in Hdd. subst e.
      destruct out as [|top out'].
      * destruct rooted.
        -- now apply IH.
        -- apply IH; [assumption | reflexivity | now exists [], 1%nat].
      * destruct (top =? "..")%string eqn:Ht.
        -- apply String.eqb_eq in Ht. subst top.
           apply IH; [assumption | cbn in Ho |- *; exact Ho
                     | now apply stack_ok_dotdot].
        -- cbn in Ho. apply andb_true_iff in Ho as [_ Ho].
           apply IH; [assumption | assumption
                     | now apply (stack_ok_pop top)].
    + apply IH; [assumption | cbn [forallb]; now rewrite He, Ho|].
      apply stack_ok_push; [|assumption].
      unfold valid_element. now rewrite He1, He2, Hdd.
Qed.

Lemma valid_elements_rooted (body : string) :
  valid_elements ("/" ++ body) = false /\ HasPrefix ("/" ++ body) "/" = true.
Proof.
  split.
  - unfold valid_elements. cbn. now destruct body.
  - unfold HasPrefix. cbn. now destruct body.
Qed.

(** What [filepath.Clean] returns: a name the filesystem accepts, or a
    name that is rooted or starts with a [..] element. *)
Lemma Clean_shape (path : string) :
  valid_elements (filepath.Clean path) = true \/
  (valid_elements (filepath.Clean path) = false /\
   (HasPrefix (filepath.Clean path) "/" = true \/
    hd "" (split_slash (filepath.Clean path)) = "..")).
Proof.
  unfold filepath.Clean.
  destruct (path =? "")%string; [now left|].
  destruct (clean_elements_shape (HasPrefix path "/") (split_slash path) [])
    as (k & reals & Heq & Hr & Hns);
    [apply split_slash_no_slash | reflexivity | apply stack_ok_nil |].
  rewrite Heq.
  destruct (HasPrefix path "/").
  - right. destruct (valid_elements_rooted
                       (String.concat "/" (repeat ".." k ++ reals))) as [H1 H2].
    now split; [|left].
  - destruct k as [|k].
    + cbn [repeat List.app] in *.
      destruct (String.concat "/" reals =? "")%string eqn:Hb; [now left|].
      left. unfold valid_elements.
      destruct reals as [|r reals]; [discriminate Hb|].
      rewrite split_slash_concat by (assumption || discriminate).
      rewrite Hr. apply orb_true_r.
    + right.
      assert (split_slash (String.concat "/" (repeat ".." (S k) ++ reals))
              = (repeat ".." (S k) ++ reals)%list) as Hsplit
        by (apply split_slash_concat; [discriminate | assumption]).
      set (body := String.concat "/" (repeat ".." (S k) ++ reals)) in *.
      assert ((body =? "")%string = false) as Hb.
      { apply String.eqb_neq. intros E. rewrite E in Hsplit. discriminate. }
      assert ((body =? ".")%string = false) as Hd.
      { apply String.eqb_neq. intros E. rewrite E in Hsplit. discriminate. }
      rewrite Hb. unfold valid_elements. rewrite Hd, Hsplit.
      split; [reflexivity | now right].
Qed.

End CleanFacts.

Section Confinement.

Lemma depth_ok_valid (elems : list string) (depth : nat) :
  forallb valid_element elems = true -> depth_ok elems depth = true.
Proof.
  revert depth. induction elems as [|e rest IH]; intros depth H;
    [reflexivity|].
  cbn in H. apply andb_true_iff in H as [He Hrest].
  unfold valid_element in He. apply negb_true_iff in He.
  apply orb_false_iff in He as [He Hdd].
  cbn [depth_ok]. rewrite Hdd, He. now apply IH.
Qed.

(** A name that [fs.ValidPath] accepts stays inside the root. *)
Lemma valid_elements_inside_root (name : string) :
  valid_elements name = true -> inside_root name = true.
Proof.
  unfold valid_elements. intros H. apply orb_true_iff in H as [H|H].
  - apply String.eqb_eq in H. now subst name.
  - unfold inside_root. rewrite (depth_ok_valid _ _ H), andb_true_r.
    destruct name as [|c s]; [reflexivity|].
    unfold HasPrefix. cbn.
    destruct (c =? "/")%char eqn:Hc; [|reflexivity].
    cbn in H. rewrite Hc in H. discriminate H.
Qed.

Lemma site_enforces_ValidPath : enforces_ValidPath Samples.site.
Proof.
  intros name H. unfold Samples.site.
  destruct (name =? "index.html")%string eqn:E1;
    [apply String.eqb_eq in E1; subst name; discriminate H|].
  destruct (name =? "assets/app.js")%string eqn:E2;
    [apply String.eqb_eq in E2; subst name; discriminate H|].
  destruct (name =? "stream")%string eqn:E3;
    [apply String.eqb_eq in E3; subst name; discriminate H|].
  reflexivity.
Qed.

End Confinement.

(** C5, as the code has it.  The name handed to the filesystem is the
    cleaned path.  Either it is a name [fs.ValidPath] accepts, and it
    stays inside the root; or it is rooted or starts with a [..]
    element, and a filesystem that enforces [fs.ValidPath] refuses to
    open it: nothing is written for that name, and the handler returns
    [echo.ErrNotFound] or, with [indexFallback], goes on to [index.html].
    Such a filesystem opens no name that leaves the root. *)
Theorem resolved_name_valid_or_refused (fileSystem : FS) (indexFallback : bool)
        (p tmpPath : string) (w : World) :
  enforces_ValidPath fileSystem ->
  url.PathUnescape p = inl tmpPath ->
  let name := resolved_name tmpPath in
  ((valid_elements name = true /\ inside_root name = true) \/
   (valid_elements name = false /\
    (HasPrefix name "/" = true \/ hd "" (split_slash name) = "..") /\
    StaticDirectoryHandler fileSystem indexFallback p w =
      if indexFallback
      then let r2 := FileFS "index.html" fileSystem w in
           (result_of r2, world_of r2, FileFSCall name :: trace_of r2)
      else (Some ErrNotFound, w, [FileFSCall name]))) /\
  (forall (n : string) (f : File),
     fileSystem n = Some f -> inside_root n = true).
Proof.
  intros Hfs Hp name. split.
  - unfold name, resolved_name, filepath.ToSlash.
    destruct (Clean_shape (TrimPrefix tmpPath "/")) as [Hv|[Hv Hshape]].
    + left. split; [exact Hv | now apply valid_elements_inside_root].
    + right. split; [exact Hv|]. split; [exact Hshape|].
      rewrite (StaticDirectoryHandler_decoded _ _ _ _ _ Hp). cbv zeta.
      unfold resolved_name, filepath.ToSlash.
      rewrite (FileFS_open_fails _ _ _ (Hfs _ Hv)).
      cbn [result_of world_of trace_of fst snd Is is_sentinel orb].
      rewrite andb_true_r. now destruct indexFallback.
  - intros n f Hn. apply valid_elements_inside_root.
    destruct (valid_elements n) eqn:Hv; [reflexivity|].
    rewrite (Hfs n Hv) in Hn. discriminate Hn.
Qed.

(** [Samples.site] refuses [../../etc/passwd]. *)
Lemma resolved_name_valid_or_refused_witness :
  StaticDirectoryHandler Samples.site false "../../etc/passwd"
                         Samples.get_world =
  (Some ErrNotFound, Samples.get_world, [FileFSCall "../../etc/passwd"]).
Proof.
  destruct (resolved_name_valid_or_refused Samples.site false
              "../../etc/passwd" "../../etc/passwd" Samples.get_world
              site_enforces_ValidPath eq_refl) as [[[Hv _]|[_ [_ H]]] _].
  - discriminate Hv.
  - exact H.
Defined.

(** C5, as stated, fails: cleaning leaves the leading [..] elements of
    [../../etc/passwd] in place, the name handed to the filesystem
    leaves the root, and a filesystem that does not check its names
    opens the file, which the handler serves. *)
Lemma traversal_survives_cleaning :
  url.PathUnescape "../../etc/passwd" = inl "../../etc/passwd" /\
  resolved_name "../../etc/passwd" = "../../etc/passwd" /\
  inside_root (resolved_name "../../etc/passwd") = false /\
  StaticDirectoryHandler Samples.unchecked_fs false "../../etc/passwd"
                         Samples.get_world =
  (None,
   {| request := request Samples.get_world;
      response := {| Committed := true; Status := 200;
                     Body := [FileContent "root:x:0:0"];
                     Writer_err := None |};
      store := [] |},
   [FileFSCall "../../etc/passwd"]).
Proof. repeat split. Qed.

(** * Further properties of the error handler *)

Section HandlerWrites.

Variables (app : App) (err : error) (w : World).
Hypothesis uncommitted : Committed (response w) = false.

Let rc := classify app err w.
Let apiErr := result_of rc.
Let ro := run_observers (OnBeforeApiError app) {| EventError := apiErr |}
                        (world_of rc).
Let rt := sendErrorResponse apiErr (snd (result_of ro)) (world_of ro).

(** When the before-observers returned nil, the writes of the handler
    are those of the terminal action. *)
Lemma handler_writes_are_terminal :
  fst (result_of ro) = None ->
  filter is_write (trace_of (HTTPErrorHandler app (Some err) w)) =
  filter is_write (trace_of rt).
Proof.
  intros Hok.
  rewrite HTTPErrorHandler_uncommitted by assumption. cbv zeta.
  fold rc. fold apiErr. rewrite Trigger_one_off. cbv zeta. fold ro.
  rewrite Hok. fold rt. cbn [result_of world_of trace_of fst snd].
  assert (filter is_write (trace_of rc) = []) as Fc
    by (apply filter_none, classify_writes).
  assert (filter is_write (trace_of ro) = []) as Fo
    by (apply filter_none, run_observers_writes).
  destruct (fst (result_of rt)) as [e|]; cbn [trace_of snd].
  - rewrite !filter_app, Fc. cbn [filter is_write List.app].
    rewrite filter_app, Fo. cbn [List.app].
    destruct (IsDebug app); cbn; now rewrite app_nil_r.
  - rewrite !filter_app, Fc. cbn [filter is_write List.app].
    rewrite filter_app, Fo. cbn [List.app].
    assert (filter is_write
              (trace_of (Trigger (OnAfterApiError app) (snd (result_of rt)) []
                                 (world_of rt))) = []) as Fa
      by (apply filter_none, after_trigger_writes).
    rewrite Fa.
    destruct (is_some _ && IsDebug app); cbn; now rewrite app_nil_r.
Qed.

(** When a before-observer failed, the handler writes nothing. *)
Lemma handler_writes_nothing_on_observer_failure (e : error) :
  fst (result_of ro) = Some e ->
  filter is_write (trace_of (HTTPErrorHandler app (Some err) w)) = [].
Proof.
  intros Hf.
  rewrite HTTPErrorHandler_uncommitted by assumption. cbv zeta.
  fold rc. fold apiErr. rewrite Trigger_one_off. cbv zeta. fold ro.
  rewrite Hf. cbn [result_of world_of trace_of fst snd].
  fold (result_of ro). rewrite Hf.
  assert (filter is_write (trace_of rc) = []) as Fc
    by (apply filter_none, classify_writes).
  assert (filter is_write (trace_of ro) = []) as Fo
    by (apply filter_none, run_observers_writes).
  cbn [trace_of snd].
  rewrite !filter_app, Fc. cbn [filter is_write List.app].
  rewrite Fo. now destruct (IsDebug app).
Qed.

End HandlerWrites.

Section Silence.

Variable app : App.

Lemma observer_not_log (name : HookName) (a : Action) :
  is_observer name a = true -> is_log a = false.
Proof. now destruct a. Qed.

Lemma run_observers_no_log (h : Hook) (e : ApiErrorEvent) (w : World) :
  count is_log (trace_of (run_observers h e w)) = 0%nat.
Proof.
  apply count_none with (g := is_observer (hook_name h)).
  - apply observer_not_log.
  - apply run_observers_trace.
Qed.

Lemma sendErrorResponse_no_log (p : ptr) (e : ApiErrorEvent) (w : World) :
  count is_log (trace_of (sendErrorResponse p e w)) = 0%nat.
Proof.
  destruct (Committed (response w)) eqn:Hc.
  - now rewrite sendErrorResponse_committed.
  - rewrite sendErrorResponse_uncommitted by assumption. cbv zeta.
    now destruct (Method (request w) =? MethodHead)%string.
Qed.

Lemma before_trigger_no_log (p : ptr) (e : ApiErrorEvent) (w : World) :
  count is_log
    (trace_of (Trigger (OnBeforeApiError app) e [sendErrorResponse p] w)) = 0%nat.
Proof.
  rewrite Trigger_one_off. cbv zeta.
  pose proof (run_observers_no_log (OnBeforeApiError app) e w) as Ho.
  destruct (fst (result_of (run_observers _ e w))); cbn [trace_of snd];
    change (TriggerCall ?n :: ?t) with ([TriggerCall n] ++ t)%list;
    rewrite ?count_app, Ho, ?sendErrorResponse_no_log; reflexivity.
Qed.

Lemma after_trigger_no_log (e : ApiErrorEvent) (w : World) :
  count is_log (trace_of (Trigger (OnAfterApiError app) e [] w)) = 0%nat.
Proof.
  rewrite Trigger_no_one_off. cbv zeta. cbn [trace_of snd].
  change (TriggerCall ?n :: ?t) with ([TriggerCall n] ++ t)%list.
  now rewrite count_app, run_observers_no_log.
Qed.

Lemma classify_silent (err : error) (w : World) :
  IsDebug app = false -> trace_of (classify app err w) = [].
Proof.
  intros Hd. unfold classify. rewrite Hd.
  destruct (As_ApiError err) as [p|].
  - reflexivity.
  - destruct (As_HTTPError err) as [[v f]|].
    + rewrite andb_false_r. reflexivity.
    + now destruct (Is err ErrNoRows).
Qed.

End Silence.

(** X1: outside diagnostic mode the handler logs nothing, whatever the
    error, the state of the response and the registered observers. *)
Theorem silent_without_debug (app : App) (err : error_value) (w : World) :
  IsDebug app = false ->
  count is_log (trace_of (HTTPErrorHandler app err w)) = 0%nat.
Proof.
  intros Hd. destruct err as [err|]; [|reflexivity].
  destruct (Committed (response w)) eqn:Hc.
  - rewrite HTTPErrorHandler_committed by assumption. now rewrite Hd.
  - rewrite HTTPErrorHandler_uncommitted by assumption. cbv zeta.
    rewrite (classify_silent app err w Hd), Hd, andb_false_r.
    set (rb := Trigger (OnBeforeApiError app) _ _ _).
    pose proof (before_trigger_no_log app (result_of (classify app err w))
                  {| EventError := result_of (classify app err w) |}
                  (world_of (classify app err w))) as Hb.
    fold rb in Hb.
    destruct (fst (result_of rb)); cbn [trace_of snd List.app];
      rewrite ?count_app, Hb, ?after_trigger_no_log; reflexivity.
Qed.

(** The handler of [Samples.plain_app] logs nothing for [Samples.boom]. *)
Lemma silent_without_debug_witness :
  count is_log
    (trace_of (HTTPErrorHandler Samples.plain_app (Some Samples.boom)
                                Samples.get_world)) = 0%nat.
Proof.
  apply (silent_without_debug Samples.plain_app (Some Samples.boom)
           Samples.get_world).
  reflexivity.
Defined.

(** X2: the after-chain is triggered once when the before-pass, terminal
    action included, returned nil, and not at all when it failed. *)
Theorem after_chain_once_after_success (app : App) (err : error) (w : World) :
  Committed (response w) = false ->
  let rc := classify app err w in
  let rb := Trigger (OnBeforeApiError app) {| EventError := result_of rc |}
                    [sendErrorResponse (result_of rc)] (world_of rc) in
  count (is_trigger AfterApiError)
        (trace_of (HTTPErrorHandler app (Some err) w)) =
  match fst (result_of rb) with
  | None => 1%nat
  | Some _ => 0%nat
  end.
Proof.
  intros Hc rc rb.
  rewrite HTTPErrorHandler_uncommitted by assumption. cbv zeta.
  fold rc. fold rb.
  assert (forall a, is_log a = true -> is_trigger AfterApiError a = false)
    as Hlog by (now intros []).
  assert (forall n a, is_observer n a = true ->
                      is_trigger AfterApiError a = false)
    as Hobs by (now intros n []).
  assert (count (is_trigger AfterApiError) (trace_of rc) = 0%nat) as A1
    by (apply (count_none _ is_log); [exact Hlog | apply classify_trace]).
  assert (count (is_trigger AfterApiError) (trace_of rb) = 0%nat) as A2.
  { unfold rb. rewrite Trigger_one_off. cbv zeta.
    pose proof (count_none (is_trigger AfterApiError) _ _
                  (Hobs (hook_name (OnBeforeApiError app)))
                  (run_observers_trace (OnBeforeApiError app)
                     {| EventError := result_of rc |} (world_of rc))) as Ho.
    set (ro := run_observers _ _ _) in *.
    assert (count (is_trigger AfterApiError)
              (trace_of (sendErrorResponse (result_of rc)
                           (snd (result_of ro)) (world_of ro))) = 0%nat) as Ht.
    { destruct (Committed (response (world_of ro))) eqn:Hc2.
      - now rewrite sendErrorResponse_committed.
      - rewrite sendErrorResponse_uncommitted by assumption. cbv zeta.
        now destruct (Method (request (world_of ro)) =? MethodHead)%string. }
    destruct (fst (result_of ro)); cbn [trace_of snd];
      change (TriggerCall ?n :: ?t) with ([TriggerCall n] ++ t)%list;
      rewrite ?count_app, Ho, ?Ht; reflexivity. }
  destruct (fst (result_of rb)) as [e|]; cbn [trace_of snd].
  - rewrite !count_app, A1, A2. now destruct (IsDebug app).
  - rewrite Trigger_no_one_off. cbv zeta. cbn [trace_of snd].
    change (TriggerCall ?n :: ?t) with ([TriggerCall n] ++ t)%list.
    rewrite !count_app, A1, A2.
    rewrite (count_none (is_trigger AfterApiError) _ _
               (Hobs (hook_name (OnAfterApiError app)))
               (run_observers_trace (OnAfterApiError app) _ _)).
    now destruct (is_some _ && IsDebug app).
Qed.

(** With a working connection the after-chain is triggered once; with a
    connection that fails the write it is not. *)
Lemma after_chain_once_after_success_witness :
  count (is_trigger AfterApiError)
        (trace_of (HTTPErrorHandler Samples.plain_app (Some Samples.boom)
                                    Samples.get_world)) = 1%nat /\
  count (is_trigger AfterApiError)
        (trace_of (HTTPErrorHandler Samples.plain_app (Some Samples.boom)
                                    Samples.disconnected_world)) = 0%nat.
Proof.
  split.
  - apply (after_chain_once_after_success Samples.plain_app Samples.boom
             Samples.get_world). reflexivity.
  - apply (after_chain_once_after_success Samples.plain_app Samples.boom
             Samples.disconnected_world). reflexivity.
Defined.

(** X3: an observer may answer the request itself.  When the
    before-observers returned nil and left the response committed, the
    handler issues no write of its own, and the after-chain is still
    triggered. *)
Theorem observer_response_is_kept (app : App) (err : error) (w : World) :
  Committed (response w) = false ->
  let rc := classify app err w in
  let ro := run_observers (OnBeforeApiError app)
                          {| EventError := result_of rc |} (world_of rc) in
  fst (result_of ro) = None ->
  Committed (response (world_of ro)) = true ->
  filter is_write (trace_of (HTTPErrorHandler app (Some err) w)) = [] /\
  In (TriggerCall AfterApiError)
     (trace_of (HTTPErrorHandler app (Some err) w)).
Proof.
  intros Hc rc ro Hok Hc2. split.
  - rewrite handler_writes_are_terminal by assumption.
    fold rc. fold ro.
    now rewrite sendErrorResponse_committed.
  - apply after_chain_iff_before_ok; [assumption|].
    fold rc. rewrite Trigger_one_off. cbv zeta. fold ro. rewrite Hok.
    now rewrite sendErrorResponse_committed.
Qed.

(** The maintenance page of [Scenarios.takeover_app] replaces the error
    response. *)
Lemma observer_response_is_kept_witness :
  filter is_write
    (trace_of (HTTPErrorHandler Scenarios.takeover_app (Some Samples.boom)
                                Samples.get_world)) = [] /\
  Status (response (world_of
    (HTTPErrorHandler Scenarios.takeover_app (Some Samples.boom)
                      Samples.get_world))) = 503.
Proof.
  split; [|reflexivity].
  apply (observer_response_is_kept Scenarios.takeover_app Samples.boom
           Samples.get_world); reflexivity.
Defined.

(** X4: wrapping an error with [fmt.Errorf("...%w", err)] does not
    change its classification: the same address when the chain carries a
    [*ApiError], and in every case an error object with the same code and
    the same message. *)
Theorem classify_wrapped (app : App) (prefix : string) (err : error) (w : World) :
  let r1 := classify app (wrapError prefix err) w in
  let r2 := classify app err w in
  result_of r1 = result_of r2 /\
  Code (deref (store (world_of r1)) (result_of r1)) =
  Code (deref (store (world_of r2)) (result_of r2)) /\
  Message (deref (store (world_of r1)) (result_of r1)) =
  Message (deref (store (world_of r2)) (result_of r2)).
Proof.
  cbv zeta. unfold classify. cbn [As_ApiError As_HTTPError].
  destruct (As_ApiError err) as [p|].
  - now repeat split.
  - destruct (As_HTTPError err) as [[v h]|].
    + now repeat split.
    + cbn [Is is_sentinel orb].
      rewrite !bind_run. cbv zeta. rewrite !when_log_world.
      destruct (Is err ErrNoRows); rewrite !new_ApiError_run;
        cbn [result_of world_of trace_of fst snd set_store store].
      * pose proof (deref_alloc (store w)
          (NewNotFoundError "" (AnyError err))) as H1.
        pose proof (deref_alloc (store w)
          (NewNotFoundError "" (AnyError (wrapError prefix err)))) as H2.
        unfold alloc in H1, H2; cbn [fst snd] in H1, H2.
        rewrite H1, H2. now repeat split.
      * pose proof (deref_alloc (store w)
          (NewBadRequestError "" (AnyError err))) as H1.
        pose proof (deref_alloc (store w)
          (NewBadRequestError "" (AnyError (wrapError prefix err)))) as H2.
        unfold alloc in H1, H2; cbn [fst snd] in H1, H2.
        rewrite H1, H2. now repeat split.
Qed.

(** X5: classification never alters an error object that exists
    already: every address of the store still holds the same object
    afterwards, and at most one object is added. *)
Theorem classify_keeps_objects (app : App) (err : error) (w : World) (p : ptr) :
  (p < List.length (store w))%nat ->
  let w' := world_of (classify app err w) in
  deref (store w') p = deref (store w) p /\
  (List.length (store w) <= List.length (store w') <= S (List.length (store w)))%nat.
Proof.
  intros Hp. cbv zeta. unfold classify.
  destruct (As_ApiError err) as [q|].
  - unfold bind, gets. cbn.
    destruct (IsDebug app && negb (is_nil (RawData (deref (store w) q))));
      cbn; (split; [reflexivity | lia]).
  - destruct (As_HTTPError err) as [[v h]|].
    + rewrite bind_run. cbv zeta. rewrite bind_run. cbv zeta.
      rewrite new_ApiError_run, when_log_world.
      cbn [gets world_of result_of fst snd set_store store].
      unfold deref. rewrite app_nth1 by assumption.
      rewrite length_app. cbn. split; [reflexivity | lia].
    + rewrite bind_run. cbv zeta. rewrite when_log_world.
      destruct (Is err ErrNoRows); rewrite new_ApiError_run;
        cbn [world_of fst snd set_store store]; unfold deref;
        rewrite app_nth1 by assumption; rewrite length_app; cbn;
        (split; [reflexivity | lia]).
Qed.

(** An error object made earlier is untouched by the classification of
    another error. *)
Lemma classify_keeps_objects_witness :
  deref (store (world_of (classify Samples.debug_app Samples.boom
           (set_store [NewApiError 409 "Conflict" AnyNil] Samples.get_world))))
        0%nat =
  NewApiError 409 "Conflict" AnyNil.
Proof.
  apply (classify_keeps_objects Samples.debug_app Samples.boom
           (set_store [NewApiError 409 "Conflict" AnyNil] Samples.get_world)
           0%nat).
  cbn. lia.
Defined.

Section EventIgnored.

(** The terminal action reads the error object through [apiErr], never
    through the event. *)
Lemma sendErrorResponse_event (p : ptr) (e1 e2 : ApiErrorEvent) (w : World) :
  trace_of (sendErrorResponse p e1 w) = trace_of (sendErrorResponse p e2 w) /\
  world_of (sendErrorResponse p e1 w) = world_of (sendErrorResponse p e2 w) /\
  fst (result_of (sendErrorResponse p e1 w)) =
  fst (result_of (sendErrorResponse p e2 w)).
Proof.
  destruct (Committed (response w)) eqn:Hc.
  - now rewrite !sendErrorResponse_committed.
  - rewrite !sendErrorResponse_uncommitted by assumption. cbv zeta.
    now destruct (Method (request w) =? MethodHead)%string.
Qed.

Lemma classify_same_debug (app1 app2 : App) (err : error) (w : World) :
  IsDebug app1 = IsDebug app2 -> classify app1 err w = classify app2 err w.
Proof. intros H. unfold classify. now rewrite H. Qed.

(** The observers of a chain with one more observer at its end. *)
Lemma run_observers_snoc (name : HookName) (hs : list Handler) (h : Handler)
      (e : ApiErrorEvent) (w : World) :
  run_observers (mkHook name (hs ++ [h])) e w =
  let ro := run_observers (mkHook name hs) e w in
  match fst (result_of ro) with
  | Some _ => ro
  | None =>
      let r := registered name h (snd (result_of ro)) (world_of ro) in
      (result_of r, world_of r, (trace_of ro ++ trace_of r)%list)
  end.
Proof.
  unfold run_observers. cbn [handlers hook_name].
  rewrite map_app, run_handlers_app. cbv zeta.
  destruct (fst (result_of _)); [reflexivity|].
  cbn [map]. now rewrite run_handlers_one.
Qed.

End EventIgnored.

(** X6: what is sent does not depend on the event's [Error] field.  An
    observer added at the end of the before-chain that only points the
    event at another error object leaves the writes of the handler as
    they were: the terminal action sends [apiErr], the object classified
    at the start. *)
Theorem event_redirect_is_ignored (app : App) (err : error) (w : World) (p' : ptr) :
  filter is_write
    (trace_of (HTTPErrorHandler
                 (Scenarios.with_before app (Scenarios.redirect_event p'))
                 (Some err) w)) =
  filter is_write (trace_of (HTTPErrorHandler app (Some err) w)).
Proof.
  set (app' := Scenarios.with_before app (Scenarios.redirect_event p')).
  destruct (Committed (response w)) eqn:Hc.
  - rewrite !HTTPErrorHandler_committed by assumption.
    cbn [trace_of snd Scenarios.with_before IsDebug app'].
    now destruct (IsDebug app).
  - assert (classify app' err w = classify app err w) as Hcl
      by (now apply classify_same_debug).
    set (rc := classify app err w) in *.
    set (ro := run_observers (OnBeforeApiError app)
                 {| EventError := result_of rc |} (world_of rc)).
    assert (run_observers (OnBeforeApiError app')
              {| EventError := result_of rc |} (world_of rc) =
            match fst (result_of ro) with
            | Some _ => ro
            | None =>
                ((None, {| EventError := p' |}), world_of ro,
                 (trace_of ro ++ [CallObserver BeforeApiError])%list)
            end) as Hro.
    { unfold OnBeforeApiError, app', Scenarios.with_before.
      cbn [beforeApiError]. rewrite run_observers_snoc. cbv zeta.
      fold (OnBeforeApiError app). fold ro.
      destruct (fst (result_of ro)); [reflexivity|].
      now rewrite registered_run. }
    destruct (fst (result_of ro)) as [e|] eqn:Hok.
    + rewrite (handler_writes_nothing_on_observer_failure app err w Hc e)
        by exact Hok.
      apply (handler_writes_nothing_on_observer_failure app' err w Hc e).
      rewrite Hcl. fold rc. rewrite Hro. exact Hok.
    + rewrite (handler_writes_are_terminal app err w Hc) by exact Hok.
      rewrite (handler_writes_are_terminal app' err w Hc)
        by (rewrite Hcl; fold rc; now rewrite Hro).
      rewrite Hcl. fold rc. rewrite Hro.
      cbn [result_of world_of fst snd]. fold ro.
      f_equal. apply sendErrorResponse_event.
Qed.

(** * Further properties of the static handler *)

Section ServingOutcome.

Lemma WriteHeader_served (r : Response) :
  served r (echo.WriteHeader StatusOK r).
Proof.
  unfold served, echo.WriteHeader.
  destruct (Committed r) eqn:H; cbn; [split; [exact H | discriminate]|].
  now split.
Qed.

Lemma Write_keeps (b : chunk) (r : Response) :
  Committed r = true ->
  Committed (fst (echo.Write b r)) = true /\
  Status (fst (echo.Write b r)) = Status r.
Proof.
  intros H. unfold echo.Write. rewrite H.
  now destruct (Writer_err r).
Qed.

Lemma serve_file_outcome (f : File) (w : World) :
  match result_of (serve_file f w) with
  | Some _ => world_of (serve_file f w) = w
  | None => served (response w) (response (world_of (serve_file f w)))
  end.
Proof.
  unfold serve_file, ServeContent, bind, modify, ret.
  destruct (ReadSeeker f); [|reflexivity]. cbn.
  pose proof (WriteHeader_served (response w)) as [Hc Hs].
  destruct (Method (request w) =? MethodHead)%string; cbn.
  - now split.
  - destruct (Write_keeps (FileContent (Data f)) _ Hc) as [Hc' Hs'].
    split; [exact Hc'|]. intros Hu. rewrite Hs'. now apply Hs.
Qed.

(** A serving attempt either fails without touching the world, or
    succeeds and leaves the response served. *)
Lemma FileFS_outcome (file : string) (fileSystem : FS) (w : World) :
  match result_of (FileFS file fileSystem w) with
  | Some _ => world_of (FileFS file fileSystem w) = w
  | None => served (response w) (response (world_of (FileFS file fileSystem w)))
  end.
Proof.
  unfold FileFS. rewrite bind_run. cbv zeta.
  cbn [emit result_of world_of trace_of fst snd].
  destruct (fileSystem file) as [f|]; [|reflexivity].
  destruct (IsDir f).
  - destruct (fileSystem _) as [f2|]; [|reflexivity].
    destruct (Stat_err f2); [reflexivity|]. apply serve_file_outcome.
  - apply serve_file_outcome.
Qed.

End ServingOutcome.

(** X7: the static handler returns an error only when it has written
    nothing, and returns nil only when the response is committed, with
    status 200 when it was not committed before: it never redirects.  So
    an error it returns always reaches the error handler with the
    response as the static handler found it. *)
Theorem static_error_leaves_response (fileSystem : FS) (indexFallback : bool)
        (p : string) (w : World) :
  let r := StaticDirectoryHandler fileSystem indexFallback p w in
  match result_of r with
  | Some _ => world_of r = w
  | None =>
      Committed (response (world_of r)) = true /\
      (Committed (response w) = false -> Status (response (world_of r)) = 200)
  end.
Proof.
  cbv zeta.
  destruct (url.PathUnescape p) as [t|err] eqn:Hp.
  - rewrite (StaticDirectoryHandler_decoded _ _ _ _ _ Hp). cbv zeta.
    pose proof (FileFS_outcome (resolved_name t) fileSystem w) as H1.
    destruct (result_of (FileFS (resolved_name t) fileSystem w)) as [e|] eqn:He.
    + destruct (indexFallback && Is e ErrNotFound).
      * rewrite H1. cbn [result_of world_of fst snd].
        apply FileFS_outcome.
      * now rewrite He.
    + rewrite He. exact H1.
  - unfold StaticDirectoryHandler. now rewrite Hp.
Qed.

(** [/dashboard] of [Samples.site] with the fallback: served with status
    200. *)
Lemma static_error_leaves_response_witness :
  Status (response (world_of
    (StaticDirectoryHandler Samples.site true "/dashboard" Samples.get_world)))
  = 200.
Proof.
  apply (static_error_leaves_response Samples.site true "/dashboard"
           Samples.get_world).
  reflexivity.
Defined.

(** X8: a file that is there is served, whatever [indexFallback]: when
    the path decodes and the resolved name opens a regular, seekable
    file, the handler makes that one serving attempt and returns nil; on
    an uncommitted response the status is 200 and the body, unless the
    method is HEAD, is the content of the file (when the connection
    takes it). *)
Theorem static_found_file_is_served (fileSystem : FS) (indexFallback : bool)
        (p tmpPath : string) (f : File) (w : World) :
  url.PathUnescape p = inl tmpPath ->
  fileSystem (resolved_name tmpPath) = Some f ->
  IsDir f = false -> ReadSeeker f = true ->
  Committed (response w) = false ->
  let r := StaticDirectoryHandler fileSystem indexFallback p w in
  result_of r = None /\
  trace_of r = [FileFSCall (resolved_name tmpPath)] /\
  Status (response (world_of r)) = 200 /\
  Body (response (world_of r)) =
    (if (Method (request w) =? MethodHead)%string then Body (response w)
     else match Writer_err (response w) with
          | None => Body (response w) ++ [FileContent (Data f)]
          | Some _ => Body (response w)
          end)%list.
Proof.
  intros Hp Hopen Hdir Hseek Hc. cbv zeta.
  rewrite (StaticDirectoryHandler_decoded _ _ _ _ _ Hp). cbv zeta.
  rewrite (FileFS_regular _ _ _ _ Hopen Hdir Hseek).
  cbn [result_of world_of trace_of fst snd].
  split; [reflexivity|]. split; [reflexivity|].
  unfold echo.WriteHeader. rewrite Hc.
  destruct (Method (request w) =? MethodHead)%string; [now split|].
  unfold echo.Write. cbn [Committed Writer_err Body].
  now destruct (Writer_err (response w)).
Qed.

(** [/assets/app.js] of [Samples.site] is served, fallback or not. *)
Lemma static_found_file_is_served_witness :
  StaticDirectoryHandler Samples.site true "/assets/app.js" Samples.get_world =
  (None,
   {| request := request Samples.get_world;
      response := {| Committed := true; Status := 200;
                     Body := [FileContent "run()"]; Writer_err := None |};
      store := [] |},
   [FileFSCall "assets/app.js"]) /\
  Status (response (world_of
    (StaticDirectoryHandler Samples.site false "/assets/app.js"
                            Samples.head_world))) = 200.
Proof.
  split; [reflexivity|].
  apply (static_found_file_is_served Samples.site false "/assets/app.js"
           "/assets/app.js" (Samples.regular "run()") Samples.head_world);
    reflexivity.
Defined.

Section NamesKept.

Lemma split_slash_nonempty (s : string) : split_slash s <> [].
Proof.
  destruct s as [|c s]; cbn; [discriminate|].
  destruct (c =? "/")%char; [discriminate|].
  destruct (split_slash s); discriminate.
Qed.

(** Joining the elements of a text with slashes gives the text back. *)
Lemma concat_split_slash (s : string) :
  String.concat "/" (split_slash s) = s.
Proof.
  induction s as [|c s IH]; [reflexivity|].
  cbn [split_slash].
  pose proof (split_slash_nonempty s) as Hne.
  destruct (c =? "/")%char eqn:Hc.
  - apply Ascii.eqb_eq in Hc. subst c.
    destruct (split_slash s) as [|e es]; [congruence|].
    change (String.concat "/" ("" :: e :: es))
      with (String "/" (String.concat "/" (e :: es))).
    now rewrite IH.
  - destruct (split_slash s) as [|e es]; [congruence|].
    destruct es as [|e2 es].
    + cbn in IH |- *. now rewrite IH.
    + change (String.concat "/" (String c e :: e2 :: es))
        with (String c (e ++ String "/" (String.concat "/" (e2 :: es)))).
      change (String.concat "/" (e :: e2 :: es))
        with (e ++ String "/" (String.concat "/" (e2 :: es))) in IH.
      now rewrite IH.
Qed.

(** Real elements are all kept by the cleaning. *)
Lemma clean_elements_valid (rooted : bool) (elems out : list string) :
  forallb valid_element elems = true ->
  filepath.clean_elements rooted elems out = (rev out ++ elems)%list.
Proof.
  revert out. induction elems as [|e rest IH]; intros out H.
  - cbn. now rewrite app_nil_r.
  - cbn in H. apply andb_true_iff in H as [He Hrest].
    unfold valid_element in He. apply negb_true_iff in He.
    apply orb_false_iff in He as [He Hdd].
    cbn [filepath.clean_elements]. rewrite He, Hdd.
    rewrite (IH _ Hrest). cbn [rev]. now rewrite <- app_assoc.
Qed.

Lemma valid_not_rooted (n : string) :
  forallb valid_element (split_slash n) = true -> HasPrefix n "/" = false.
Proof.
  intros H. destruct n as [|c s]; [reflexivity|].
  unfold HasPrefix. cbn.
  destruct (c =? "/")%char eqn:Hc.
  - cbn in H. rewrite Hc in H. discriminate H.
  - reflexivity.
Qed.

Lemma Clean_valid (n : string) :
  valid_elements n = true -> filepath.Clean n = n.
Proof.
  unfold valid_elements. intros H. apply orb_true_iff in H as [H|H].
  - apply String.eqb_eq in H. now subst n.
  - unfold filepath.Clean.
    destruct (n =? "")%string eqn:Hn;
      [apply String.eqb_eq in Hn; subst n; discriminate H|].
    rewrite (valid_not_rooted n H).
    rewrite (clean_elements_valid false _ [] H). cbn [rev List.app].
    now rewrite concat_split_slash, Hn.
Qed.

Lemma TrimPrefix_slash (n : string) :
  TrimPrefix ("/" ++ n) "/" = n.
Proof.
  unfold TrimPrefix, HasPrefix. cbn.
  replace (substring 0 0 n) with EmptyString by (now destruct n).
  cbn. rewrite Nat.sub_0_r. apply substring_all.
Qed.

Lemma PathUnescape_no_percent (s : string) :
  no_percent s = true -> url.PathUnescape s = inl s.
Proof.
  induction s as [|c s IH]; [reflexivity|].
  cbn [no_percent]. intros H. apply andb_true_iff in H as [Hc Hs].
  apply negb_true_iff in Hc. cbn [url.PathUnescape].
  now rewrite Hc, (IH Hs).
Qed.

End NamesKept.

(** X9: every name of the filesystem can be asked for.  A name that
    [fs.ValidPath] accepts and that has no percent sign goes through
    decoding unchanged and is handed to the filesystem as it is, with or
    without a leading slash in the request. *)
Theorem valid_name_is_kept (n : string) :
  valid_elements n = true ->
  no_percent n = true ->
  url.PathUnescape n = inl n /\
  url.PathUnescape ("/" ++ n) = inl ("/" ++ n) /\
  resolved_name n = n /\
  resolved_name ("/" ++ n) = n.
Proof.
  intros Hv Hp.
  assert (TrimPrefix n "/" = n) as Ht.
  { unfold valid_elements in Hv. apply orb_true_iff in Hv as [Hv|Hv].
    - apply String.eqb_eq in Hv. now subst n.
    - unfold TrimPrefix. now rewrite (valid_not_rooted n Hv). }
  split; [now apply PathUnescape_no_percent|].
  split; [apply PathUnescape_no_percent; cbn; exact Hp|].
  unfold resolved_name, filepath.ToSlash.
  rewrite TrimPrefix_slash, Ht. split; now apply Clean_valid.
Qed.

(** [assets/app.js] is handed to the filesystem under that name. *)
Lemma valid_name_is_kept_witness :
  resolved_name "/assets/app.js" = "assets/app.js".
Proof.
  apply (valid_name_is_kept "assets/app.js"); reflexivity.
Defined.

(** * Route handlers and the error handler together *)

Section Dispatch.

Variable app : App.

Lemma dispatch_error (h : Eff error_value) (w w1 : World) (e : error)
      (t : list Action) :
  h w = (Some e, w1, t) ->
  dispatch app h w =
  (tt, world_of (HTTPErrorHandler app (Some e) w1),
   (t ++ trace_of (HTTPErrorHandler app (Some e) w1))%list).
Proof.
  intros H. unfold dispatch. rewrite bind_run. cbv zeta. rewrite H.
  cbn [result_of world_of trace_of fst snd].
  now destruct (HTTPErrorHandler app (Some e) w1) as [[[] w2] t2].
Qed.

(** The write of the handler when the observers let it through. *)
Lemma handler_write_of_classified (err : error) (w : World) :
  Committed (response w) = false ->
  observers_pass app err w ->
  filter is_write (trace_of (HTTPErrorHandler app (Some err) w)) =
  [error_write (Method (request w))
     (deref (store (world_of (classify app err w)))
            (result_of (classify app err w)))].
Proof.
  intros Hc (Hok & Hc2 & Hobj & Hm).
  rewrite handler_writes_are_terminal by assumption.
  rewrite sendErrorResponse_uncommitted by assumption. cbv zeta.
  rewrite Hobj, Hm. unfold error_write.
  now destruct (Method (request w) =? MethodHead)%string.
Qed.

Lemma classify_plain_error (err : error) (w : World) :
  As_ApiError err = None -> As_HTTPError err = None ->
  Is err ErrNoRows = false ->
  deref (store (world_of (classify app err w))) (result_of (classify app err w)) =
  NewBadRequestError "" (AnyError err).
Proof.
  intros H1 H2 H3. unfold classify. rewrite H1, H2, H3.
  rewrite bind_run. cbv zeta. rewrite when_log_world, new_ApiError_run.
  cbn [result_of world_of trace_of fst snd set_store store].
  pose proof (deref_alloc (store w) (NewBadRequestError "" (AnyError err))) as Hd.
  unfold alloc in Hd; cbn [fst snd] in Hd. exact Hd.
Qed.

End Dispatch.

Lemma PathUnescape_error_bounded (n : nat) (s : string) (err : error) :
  (String.length s <= n)%nat ->
  url.PathUnescape s = inr err -> exists bad, err = EscapeError bad.
Proof.
  revert s err. induction n as [|n IH]; intros s err Hlen H.
  - destruct s; [discriminate H | cbn in Hlen; lia].
  - destruct s as [|c s]; [discriminate H|].
    cbn [url.PathUnescape] in H. cbn in Hlen.
    destruct (c =? "%")%char.
    + destruct s as [|a [|b s']]; try (injection H as <-; now eexists).
      destruct (url.ishex a && url.ishex b);
        [|injection H as <-; now eexists].
      destruct (url.PathUnescape s') as [t|e'] eqn:E; [discriminate H|].
      injection H as <-. apply (IH s' e'); [cbn in Hlen; lia | exact E].
    + destruct (url.PathUnescape s) as [t|e'] eqn:E; [discriminate H|].
      injection H as <-. apply (IH s e'); [lia | exact E].
Qed.

(** X10: a path with a malformed percent escape is a bad request.  The
    static handler returns the wrapped [url.EscapeError] without calling
    the filesystem; that error classifies to code 400; and on an
    uncommitted response, when the observers let it through, the one
    write of the dispatch is the 400 response. *)
Theorem static_bad_escape_is_400 (app : App) (fileSystem : FS)
        (indexFallback : bool) (p : string) (err : error) (w : World) :
  url.PathUnescape p = inr err ->
  let e := wrapError "failed to unescape path variable: " err in
  let a := deref (store (world_of (classify app e w)))
                 (result_of (classify app e w)) in
  StaticDirectoryHandler fileSystem indexFallback p w = (Some e, w, []) /\
  Code a = 400 /\
  (Committed (response w) = false -> observers_pass app e w ->
   filter is_write
     (trace_of (dispatch app (StaticDirectoryHandler fileSystem indexFallback p) w))
   = [error_write (Method (request w)) a]).
Proof.
  intros Hp e a.
  assert (StaticDirectoryHandler fileSystem indexFallback p w = (Some e, w, []))
    as Hs by (unfold StaticDirectoryHandler; now rewrite Hp).
  destruct (PathUnescape_error_bounded _ p err (Nat.le_refl _) Hp) as [bad ->].
  assert (a = NewBadRequestError "" (AnyError e)) as Ha
    by (now apply classify_plain_error).
  split; [exact Hs|]. split; [now rewrite Ha|].
  intros Hc Hpass. rewrite (dispatch_error app _ w w e [] Hs).
  cbn [trace_of snd List.app].
  now apply handler_write_of_classified.
Qed.

(** [%zz] does not decode: the GET request is answered with the JSON
    document of code 400. *)
Lemma static_bad_escape_is_400_witness :
  filter is_write
    (trace_of (dispatch Samples.plain_app
                 (StaticDirectoryHandler Samples.site true "%zz")
                 Samples.get_world)) =
  [JSONCall 400 [("code", JNumber 400); ("message", JString "")]].
Proof.
  apply (static_bad_escape_is_400 Samples.plain_app Samples.site true "%zz"
           (EscapeError "%zz") Samples.get_world eq_refl).
  - reflexivity.
  - repeat split.
Defined.

(** X11: an unmatched API route answers 404.  The catch-all handler
    returns [echo.ErrNotFound] for every request, touching nothing; on an
    uncommitted response, when the observers let it through, the one
    write of the dispatch is [NoContent(404)] for HEAD and otherwise the
    JSON document [{code: 404, message: "Not Found"}] with status 404. *)
Theorem catch_all_is_404 (app : App) (w : World) :
  Committed (response w) = false ->
  observers_pass app ErrNotFound w ->
  catchAll w = (Some ErrNotFound, w, []) /\
  filter is_write (trace_of (dispatch app catchAll w)) =
  [if (Method (request w) =? MethodHead)%string then NoContentCall 404
   else JSONCall 404 [("code", JNumber 404); ("message", JString "Not Found")]].
Proof.
  intros Hc Hpass. split; [reflexivity|].
  rewrite (dispatch_error app catchAll w w ErrNotFound [] eq_refl).
  cbn [trace_of snd List.app].
  rewrite handler_write_of_classified by assumption.
  now rewrite classify_ErrNotFound.
Qed.

(** An unknown API path asked with HEAD: a bodyless 404. *)
Lemma catch_all_is_404_witness :
  filter is_write (trace_of (dispatch Samples.debug_app catchAll Samples.head_world)) =
  [NoContentCall 404].
Proof.
  apply (catch_all_is_404 Samples.debug_app Samples.head_world).
  - reflexivity.
  - repeat split.
Defined.

(** X12: a missing static file answers 404 when nothing falls back.
    When the path decodes, the resolved name does not open, and either
    [indexFallback] is off or [index.html] does not open, the dispatch of
    the static handler on an uncommitted response, when the observers
    let it through, tries the file (and [index.html] with the fallback)
    and then issues the one 404 write. *)
Theorem static_miss_is_404 (app : App) (fileSystem : FS) (indexFallback : bool)
        (p tmpPath : string) (w : World) :
  url.PathUnescape p = inl tmpPath ->
  fileSystem (resolved_name tmpPath) = None ->
  (indexFallback = false \/ fileSystem "index.html" = None) ->
  Committed (response w) = false ->
  observers_pass app ErrNotFound w ->
  filter is_write
    (trace_of (dispatch app (StaticDirectoryHandler fileSystem indexFallback p) w))
  = [if (Method (request w) =? MethodHead)%string then NoContentCall 404
     else JSONCall 404 [("code", JNumber 404); ("message", JString "Not Found")]].
Proof.
  intros Hp Hopen Hfb Hc Hpass.
  assert (exists t, StaticDirectoryHandler fileSystem indexFallback p w =
                    (Some ErrNotFound, w, t) /\ filter is_write t = [])
    as (t & Hs & Ht).
  { rewrite (StaticDirectoryHandler_decoded _ _ _ _ _ Hp). cbv zeta.
    rewrite (FileFS_open_fails _ _ _ Hopen).
    cbn [result_of world_of trace_of fst snd Is is_sentinel orb].
    rewrite andb_true_r.
    destruct indexFallback.
    - destruct Hfb as [Hfb|Hidx]; [discriminate Hfb|].
      rewrite (FileFS_open_fails _ _ _ Hidx).
      now eexists.
    - now eexists. }
  rewrite (dispatch_error app _ w w ErrNotFound t Hs).
  cbn [trace_of snd]. rewrite filter_app, Ht. cbn [List.app].
  rewrite handler_write_of_classified by assumption.
  now rewrite classify_ErrNotFound.
Qed.

(** [/dashboard] of [Samples.site], fallback off: the 404 document. *)
Lemma static_miss_is_404_witness :
  filter is_write
    (trace_of (dispatch Samples.plain_app
                 (StaticDirectoryHandler Samples.site false "/dashboard")
                 Samples.get_world)) =
  [JSONCall 404 [("code", JNumber 404); ("message", JString "Not Found")]].
Proof.
  apply (static_miss_is_404 Samples.plain_app Samples.site false "/dashboard"
           "/dashboard" Samples.get_world eq_refl eq_refl (or_introl eq_refl)).
  - reflexivity.
  - repeat split.
Defined.

(** * The diagnostic mode *)

Section DebugOnlyLogs.




End DebugOnlyLogs.


(** * Errors and the response they get *)

Section ClassifiedObject.

Variable app : App.

Lemma classify_ApiError (err : error) (p : ptr) (w : World) :
  As_ApiError err = Some p ->
  result_of (classify app err w) = p /\ world_of (classify app err w) = w.
Proof.
  intros H. unfold classify. rewrite H. unfold bind, gets. cbn.
  now destruct (IsDebug app && negb (is_nil (RawData (deref (store w) p)))).
Qed.

Lemma classify_HTTPError (err v : error) (h : HTTPError) (w : World) :
  As_ApiError err = None -> As_HTTPError err = Some (v, h) ->
  deref (store (world_of (classify app err w))) (result_of (classify app err w)) =
  NewApiError (HTTPError_Code h) (Sprintf_v (store w) (HTTPError_Message h))
              (AnyError v).
Proof.
  intros H1 H2. unfold classify. rewrite H1, H2.
  rewrite bind_run. cbv zeta. rewrite bind_run. cbv zeta.
  rewrite new_ApiError_run, when_log_world.
  cbn [gets result_of world_of trace_of fst snd set_store store].
  pose proof (deref_alloc (store w)
    (NewApiError (HTTPError_Code h)
       (Sprintf_v (store w) (HTTPError_Message h)) (AnyError v))) as Hd.
  unfold alloc in Hd; cbn [fst snd] in Hd. exact Hd.
Qed.

End ClassifiedObject.

(** X14: an [ApiError] is sent as it is, however it is wrapped.  When
    the chain of the error carries a [*ApiError] (directly, under
    [fmt.Errorf] wrappers, or as the internal cause of an HTTP error), on
    an uncommitted response, when the observers let it through, the one
    write of the handler carries the code and the message of that very
    object. *)
Theorem api_error_is_sent_as_is (app : App) (err : error) (p : ptr) (w : World) :
  As_ApiError err = Some p ->
  Committed (response w) = false ->
  observers_pass app err w ->
  filter is_write (trace_of (HTTPErrorHandler app (Some err) w)) =
  [error_write (Method (request w)) (deref (store w) p)].
Proof.
  intros Has Hc Hpass.
  rewrite handler_write_of_classified by assumption.
  destruct (classify_ApiError app err p w Has) as [-> ->]. reflexivity.
Qed.

(** A 403 [ApiError], wrapped twice and put inside an HTTP error of code
    500: the response is the 403 of the [ApiError]. *)
Lemma api_error_is_sent_as_is_witness :
  filter is_write
    (trace_of (HTTPErrorHandler Samples.plain_app
                 (Some Scenarios.forbidden_inside)
                 Scenarios.forbidden_world)) =
  [JSONCall 403 [("code", JNumber 403); ("message", JString "Forbidden.")]].
Proof.
  apply (api_error_is_sent_as_is Samples.plain_app
           Scenarios.forbidden_inside 0%nat Scenarios.forbidden_world
           eq_refl eq_refl).
  repeat split.
Defined.

(** X15: a framework HTTP error is answered with its own status.  When
    the chain carries no [*ApiError] but a [*echo.HTTPError], on an
    uncommitted response, when the observers let it through, the one
    write of the handler has the code of the HTTP error and, as message,
    its message rendered with [%v]: a text message as it is. *)
Theorem http_error_keeps_its_code (app : App) (err v : error) (h : HTTPError)
        (w : World) :
  As_ApiError err = None ->
  As_HTTPError err = Some (v, h) ->
  Committed (response w) = false ->
  observers_pass app err w ->
  filter is_write (trace_of (HTTPErrorHandler app (Some err) w)) =
  [if (Method (request w) =? MethodHead)%string
   then NoContentCall (HTTPError_Code h)
   else JSONCall (HTTPError_Code h)
          [("code", JNumber (HTTPError_Code h));
           ("message", JString (Sprintf_v (store w) (HTTPError_Message h)))]] /\
  (forall s, HTTPError_Message h = AnyString s ->
             Sprintf_v (store w) (HTTPError_Message h) = s).
Proof.
  intros H1 H2 Hc Hpass. split.
  - rewrite handler_write_of_classified by assumption.
    rewrite (classify_HTTPError app err v h w H1 H2).
    unfold error_write.
    now destruct (Method (request w) =? MethodHead)%string.
  - intros s ->. reflexivity.
Qed.

(** [echo.NewHTTPError(413, "too large")], wrapped: a 413 response. *)
Lemma http_error_keeps_its_code_witness :
  filter is_write
    (trace_of (HTTPErrorHandler Samples.plain_app
                 (Some (wrapError "upload: " Scenarios.too_large))
                 Samples.get_world)) =
  [JSONCall 413 [("code", JNumber 413); ("message", JString "too large")]].
Proof.
  apply (http_error_keeps_its_code Samples.plain_app
           (wrapError "upload: " Scenarios.too_large) Scenarios.too_large
           (mkHTTPError 413 (AnyString "too large") None)
           Samples.get_world eq_refl eq_refl eq_refl).
  repeat split.
Defined.

(** * Trailing slashes in static requests *)

Section TrailingSlash.

Lemma split_slash_snoc (x : string) :
  split_slash (x ++ "/") = (split_slash x ++ [""])%list.
Proof.
  induction x as [|c x IH]; [reflexivity|].
  cbn [append split_slash]. rewrite IH.
  destruct (c =? "/")%char; [reflexivity|].
  pose proof (split_slash_nonempty x) as Hne.
  destruct (split_slash x) as [|e es]; [congruence | reflexivity].
Qed.

Lemma clean_elements_valid_app (rooted : bool) (elems rest out : list string) :
  forallb valid_element elems = true ->
  filepath.clean_elements rooted (elems ++ rest) out =
  filepath.clean_elements rooted rest (rev elems ++ out).
Proof.
  revert out. induction elems as [|e elems IH]; intros out H; [reflexivity|].
  cbn in H. apply andb_true_iff in H as [He Hrest].
  unfold valid_element in He. apply negb_true_iff in He.
  apply orb_false_iff in He as [He Hdd].
  cbn [List.app filepath.clean_elements]. rewrite He, Hdd.
  rewrite (IH _ Hrest). cbn [rev]. now rewrite <- app_assoc.
Qed.

Lemma HasPrefix_slash_head (c : ascii) (s : string) :
  HasPrefix (String c s) "/" = (c =? "/")%char.
Proof.
  unfold HasPrefix. cbn.
  replace (substring 0 0 s) with EmptyString by (now destruct s).
  cbn. now destruct (c =? "/")%char.
Qed.

Lemma Clean_trailing_slash (n : string) :
  valid_elements n = true -> filepath.Clean (n ++ "/") = n.
Proof.
  unfold valid_elements. intros H. apply orb_true_iff in H as [H|H].
  - apply String.eqb_eq in H. now subst n.
  - destruct n as [|c s]; [discriminate H|].
    pose proof (valid_not_rooted _ H) as Hr.
    rewrite HasPrefix_slash_head in Hr.
    unfold filepath.Clean. cbn [append].
    rewrite HasPrefix_slash_head, Hr.
    change (String c (s ++ "/")) with (String c s ++ "/").
    rewrite split_slash_snoc.
    rewrite (clean_elements_valid_app false _ [""] [] H).
    cbn [filepath.clean_elements String.eqb orb].
    rewrite app_nil_r, rev_involutive, concat_split_slash.
    reflexivity.
Qed.

End TrailingSlash.

(** X16: a trailing slash in a static request does not matter.  For a
    name [n] that [fs.ValidPath] accepts, the requests [n/] and [/n/]
    resolve to [n] itself, the name the request [n] resolves to: the
    handler needs no redirect to tell the two apart. *)
Theorem static_trailing_slash_is_dropped (n : string) :
  valid_elements n = true ->
  resolved_name (n ++ "/") = n /\
  resolved_name ("/" ++ n ++ "/") = n /\
  resolved_name n = n.
Proof.
  intros Hv.
  assert (TrimPrefix (n ++ "/") "/" = n ++ "/") as Ht.
  { unfold valid_elements in Hv. apply orb_true_iff in Hv as [Hv|Hv].
    - apply String.eqb_eq in Hv. now subst n.
    - destruct n as [|c s]; [discriminate Hv|].
      pose proof (valid_not_rooted _ Hv) as Hr.
      rewrite HasPrefix_slash_head in Hr.
      unfold TrimPrefix. cbn [append].
      now rewrite HasPrefix_slash_head, Hr. }
  assert (TrimPrefix n "/" = n) as Ht'.
  { unfold valid_elements in Hv. apply orb_true_iff in Hv as [Hv|Hv].
    - apply String.eqb_eq in Hv. now subst n.
    - unfold TrimPrefix. now rewrite (valid_not_rooted n Hv). }
  unfold resolved_name, filepath.ToSlash.
  rewrite TrimPrefix_slash, Ht, Ht'.
  split; [now apply Clean_trailing_slash|].
  split; [now apply Clean_trailing_slash | now apply Clean_valid].
Qed.

(** [/assets/] resolves to [assets]. *)
Lemma static_trailing_slash_is_dropped_witness :
  resolved_name ("/" ++ "assets" ++ "/") = "assets".
Proof.
  apply (static_trailing_slash_is_dropped "assets"). reflexivity.
Defined.
